(** * PanDismissibleView: a shallow embedding and its release-decision properties

    Source: src/components/panningViews/panDismissibleView.js

    The component is a React class.  Its instance fields ([this.left],
    [this.swipe], ...) and its React state ([this.state.isAnimating], ...)
    are gathered in one record, [Instance]; every method is a function in a
    small state / output / exception monad, [Method].  What the component
    does to the outside world (native style mutation, starting an animation,
    calling the [onDismiss] prop) is recorded as a list of [Effect]s.

    Numbers.  A JavaScript number is modelled by the rational it denotes
    ([Q]); [NaN] is kept because the code produces it from [undefined]
    operands ([-undefined], [Math.round(undefined)]).  Negation, halving,
    comparison and [Math.round] are exact on doubles; the sum
    [Constants.screenWidth + this.width] is not, and is rounded to the
    nearest double, ties to even ([toDouble]).  Infinities (a sum that
    overflows) and the sign of zero are outside the model.  Numbers that
    come in from outside (drag deltas, layout sizes, style offsets, screen
    size) are finite.

    React.  No method reads [this.state] after it has called [setState], so
    a state update is applied where [setState] is called.  The callback given
    to [setState], which starts the animation, is logged at the same place;
    React runs it once the update is committed, before the next event.  The
    re-render that a state change causes calls [componentDidUpdate] with
    unchanged props, which does nothing (lemma
    [componentDidUpdate_same_props]), so the event loop below only delivers
    prop changes. *)

From Stdlib Require Import QArith Qround Qabs Qpower ZArith List Bool Lia.
Import ListNotations.

Set Implicit Arguments.

(** ** JavaScript values held in number slots *)

Inductive jsnum : Type :=
| Undefined
| NaN
| Num (q : Q).

Definition ofOptQ (o : option Q) : jsnum :=
  match o with
  | Some q => Num q
  | None => Undefined
  end.

(** [_.isUndefined(v)] *)
Definition isUndefined (v : jsnum) : bool :=
  match v with
  | Undefined => true
  | _ => false
  end.

(** Truthiness of a number slot: [undefined], [NaN] and [0] are falsy. *)
Definition truthy (v : jsnum) : bool :=
  match v with
  | Num q => negb (Qeq_bool q 0)
  | _ => false
  end.

(** [Math.round]: the nearest integer, halves towards plus infinity. *)
Definition roundQ (q : Q) : Q := inject_Z (Qfloor (q + (1 # 2))).

Definition Math_round (v : jsnum) : jsnum :=
  match v with
  | Num q => Num (roundQ q)
  | _ => NaN
  end.

(** Unary minus. *)
Definition neg (v : jsnum) : jsnum :=
  match v with
  | Num q => Num (- q)
  | _ => NaN
  end.

(** The integer part of the binary logarithm of a positive rational. *)
Definition Qlog2 (x : Q) : Z :=
  let n := (Z.log2 (Qnum x) - Z.log2 (Zpos (Qden x)))%Z in
  if Qle_bool (Qpower 2 n) x then n else (n - 1)%Z.

(** The nearest integer, halves to the even one. *)
Definition roundEven (x : Q) : Z :=
  let f := Qfloor x in
  match Qcompare (x - inject_Z f) (1 # 2) with
  | Lt => f
  | Gt => (f + 1)%Z
  | Eq => if Z.even f then f else (f + 1)%Z
  end.

(** The nearest double (binary64: 53 significant bits, least exponent
    -1074), ties to even, as every arithmetic operation on numbers rounds
    its exact result. *)
Definition toDouble (q : Q) : Q :=
  let x := Qred q in
  if Qeq_bool x 0 then 0 else
  let e := Z.max (Qlog2 (Qabs x) - 52) (-1074) in
  let r := Qred (inject_Z (roundEven (Qabs x / Qpower 2 e)) * Qpower 2 e) in
  if Qle_bool 0 x then r else - r.

(** [a + b] *)
Definition add (a b : jsnum) : jsnum :=
  match a, b with
  | Num p, Num q => Num (toDouble (p + q))
  | _, _ => NaN
  end.

(** [v / 2] *)
Definition half (v : jsnum) : jsnum :=
  match v with
  | Num q => Num (q / 2)
  | _ => NaN
  end.

(** [a <= b] and [a >= b]: false as soon as an operand is not a number. *)
Definition le (a b : jsnum) : bool :=
  match a, b with
  | Num p, Num q => Qle_bool p q
  | _, _ => false
  end.

Definition ge (a b : jsnum) : bool := le b a.

(** [a === b] *)
Definition strict_eq (a b : jsnum) : bool :=
  match a, b with
  | Undefined, Undefined => true
  | Num p, Num q => Qeq_bool p q
  | _, _ => false
  end.

(** ** Directions, pan context and props *)

(** Modelled from the spec: [PanningProvider.Directions] (panningProvider.js
    is not among the sources).  The spec gives the enumeration
    [UP | DOWN | LEFT | RIGHT]; its members are distinct and truthy. *)
Inductive Direction : Type := UP | DOWN | LEFT | RIGHT.

Definition Direction_eqb (a b : Direction) : bool :=
  match a, b with
  | UP, UP | DOWN, DOWN | LEFT, LEFT | RIGHT, RIGHT => true
  | _, _ => false
  end.

(** [{x?: Direction, y?: Direction}] *)
Record AxisDirections : Type := {
  dir_x : option Direction;
  dir_y : option Direction
}.

(** [{x?: number, y?: number}] *)
Record AxisDeltas : Type := {
  delta_x : option Q;
  delta_y : option Q
}.

(** [this.props.context], injected by [asPanViewConsumer]. *)
Record Context : Type := {
  isPanning : bool;
  dragDeltas : AxisDeltas;
  swipeDirections : AxisDirections;
  dragDirections : AxisDirections
}.

Record Style : Type := {
  style_left : option Q;
  style_top : option Q
}.

Record AnimationOptions : Type := {
  animationSpeed : jsnum;
  animationBounciness : jsnum
}.

(** The props after [defaultProps]: [directions] is an array and
    [animationOptions] an object ([null] passed for either is outside the
    model).  [onDismiss] records whether a callback was supplied. *)
Record Props : Type := {
  directions : list Direction;
  onDismiss : bool;
  animationOptions : AnimationOptions;
  dismissAnimationDuration : jsnum;
  style : Style;
  context : Context
}.

(** Modelled from the spec: [Constants.screenWidth] and
    [Constants.screenHeight] of the helpers module (not among the sources),
    the extent of the containing screen. *)
Record ScreenConstants : Type := {
  screenWidth : Q;
  screenHeight : Q
}.

Definition DEFAULT_SPEED : Q := 20.
Definition DEFAULT_BOUNCINESS : Q := 6.
Definition DEFAULT_DISMISS_ANIMATION_DURATION : Q := 280.

Definition allDirections : list Direction := [UP; DOWN; LEFT; RIGHT].

Definition defaultAnimationOptions : AnimationOptions :=
  {| animationSpeed := Num DEFAULT_SPEED;
     animationBounciness := Num DEFAULT_BOUNCINESS |}.

Definition includes (ds : list Direction) (d : Direction) : bool :=
  existsb (Direction_eqb d) ds.

(** A direction slot is truthy exactly when it is set. *)
Definition isSet (o : option Direction) : bool :=
  match o with
  | Some _ => true
  | None => false
  end.

Definition dir_strict_eq (a b : option Direction) : bool :=
  match a, b with
  | None, None => true
  | Some c, Some d => Direction_eqb c d
  | _, _ => false
  end.

(** ** The component instance *)

(** An [Animated.Value] object: [new Animated.Value(v)] allocates a fresh
    one, told apart by [vid]. *)
Record AnimatedValue : Type := {
  vid : nat;
  initial : jsnum
}.

Record Instance : Type := {
  (* this.state *)
  animTranslateX : AnimatedValue;
  animTranslateY : AnimatedValue;
  isAnimating : bool;
  (* this.ref.current is attached *)
  ref_current : bool;
  (* instance fields, [Undefined] until assigned *)
  height : jsnum;
  thresholdY : jsnum;
  width : jsnum;
  thresholdX : jsnum;
  originalLeft : jsnum;
  originalTop : jsnum;
  left : jsnum;
  top : jsnum;
  swipe : option AxisDirections;
  (* allocation counter for Animated.Value objects *)
  fresh : nat
}.

Definition constructor : Instance :=
  {| animTranslateX := {| vid := 0; initial := Num 0 |};
     animTranslateY := {| vid := 1; initial := Num 0 |};
     isAnimating := false;
     ref_current := false;
     height := Undefined; thresholdY := Undefined;
     width := Undefined; thresholdX := Undefined;
     originalLeft := Undefined; originalTop := Undefined;
     left := Undefined; top := Undefined;
     swipe := None;
     fresh := 2 |}.

Definition set_ref (b : bool) (i : Instance) : Instance :=
  {| animTranslateX := animTranslateX i; animTranslateY := animTranslateY i;
     isAnimating := isAnimating i; ref_current := b;
     height := height i; thresholdY := thresholdY i;
     width := width i; thresholdX := thresholdX i;
     originalLeft := originalLeft i; originalTop := originalTop i;
     left := left i; top := top i; swipe := swipe i; fresh := fresh i |}.

Definition set_isAnimating (b : bool) (i : Instance) : Instance :=
  {| animTranslateX := animTranslateX i; animTranslateY := animTranslateY i;
     isAnimating := b; ref_current := ref_current i;
     height := height i; thresholdY := thresholdY i;
     width := width i; thresholdX := thresholdX i;
     originalLeft := originalLeft i; originalTop := originalTop i;
     left := left i; top := top i; swipe := swipe i; fresh := fresh i |}.

(** [setState({animTranslateX: new Animated.Value(a), animTranslateY: new
    Animated.Value(b)})] *)
Definition set_channels (a b : jsnum) (i : Instance) : Instance :=
  {| animTranslateX := {| vid := fresh i; initial := a |};
     animTranslateY := {| vid := S (fresh i); initial := b |};
     isAnimating := isAnimating i; ref_current := ref_current i;
     height := height i; thresholdY := thresholdY i;
     width := width i; thresholdX := thresholdX i;
     originalLeft := originalLeft i; originalTop := originalTop i;
     left := left i; top := top i; swipe := swipe i;
     fresh := S (S (fresh i)) |}.

Definition set_position (l t : jsnum) (i : Instance) : Instance :=
  {| animTranslateX := animTranslateX i; animTranslateY := animTranslateY i;
     isAnimating := isAnimating i; ref_current := ref_current i;
     height := height i; thresholdY := thresholdY i;
     width := width i; thresholdX := thresholdX i;
     originalLeft := originalLeft i; originalTop := originalTop i;
     left := l; top := t; swipe := swipe i; fresh := fresh i |}.

Definition set_swipe (s : AxisDirections) (i : Instance) : Instance :=
  {| animTranslateX := animTranslateX i; animTranslateY := animTranslateY i;
     isAnimating := isAnimating i; ref_current := ref_current i;
     height := height i; thresholdY := thresholdY i;
     width := width i; thresholdX := thresholdX i;
     originalLeft := originalLeft i; originalTop := originalTop i;
     left := left i; top := top i; swipe := Some s; fresh := fresh i |}.

(** The assignments of [onLayout]. *)
Definition set_geometry (w h ol ot : jsnum) (i : Instance) : Instance :=
  {| animTranslateX := animTranslateX i; animTranslateY := animTranslateY i;
     isAnimating := isAnimating i; ref_current := ref_current i;
     height := h; thresholdY := half h;
     width := w; thresholdX := half w;
     originalLeft := ol; originalTop := ot;
     left := left i; top := top i; swipe := swipe i; fresh := fresh i |}.

(** ** What the component does to its environment *)

Inductive Animation : Type :=
| spring (value : AnimatedValue) (toValue speed bounciness : jsnum)
| timing (value : AnimatedValue) (toValue : jsnum) (duration : Q).

Inductive Completion : Type :=
| InitAnimation      (* completion goes to onInitAnimationFinished *)
| DismissAnimation.  (* completion goes to onDismissAnimationFinished *)

Inductive Effect : Type :=
| NativeProps (l t : jsnum)
    (* this.ref.current.setNativeProps({style: {left, top}}) *)
| ParallelStart (animations : list Animation) (callback : Completion)
    (* Animated.parallel(animations).start(callback) *)
| DismissCallback.
    (* this.props.onDismiss() *)

(** ** Methods: state, output and a thrown TypeError *)

Inductive Outcome (A : Type) : Type :=
| Returned (a : A) (this : Instance) (effects : list Effect)
| Thrown.

Arguments Thrown {A}.

Definition Method (A : Type) : Type := Instance -> Outcome A.

Definition ret {A} (a : A) : Method A := fun this => Returned a this [].

Definition bind {A B} (m : Method A) (k : A -> Method B) : Method B :=
  fun this =>
    match m this with
    | Returned a this' out =>
        match k a this' with
        | Returned b this'' out' => Returned b this'' (out ++ out')
        | Thrown => Thrown
        end
    | Thrown => Thrown
    end.

Definition get : Method Instance := fun this => Returned this this [].
Definition modify (f : Instance -> Instance) : Method unit :=
  fun this => Returned tt (f this) [].
Definition emit (e : Effect) : Method unit :=
  fun this => Returned tt this [e].
Definition throw {A} : Method A := fun _ => Thrown.

Declare Scope method_scope.
Delimit Scope method_scope with method.
Notation "x <- m ;; k" := (bind m (fun x => k))
  (at level 61, m at next level, right associativity) : method_scope.
Notation "m ;; k" := (bind m (fun _ => k))
  (at level 61, right associativity) : method_scope.

Definition when (b : bool) (m : Method unit) : Method unit :=
  if b then m else ret tt.

Definition effectsOf {A} (o : Outcome A) : list Effect :=
  match o with
  | Returned _ _ out => out
  | Thrown => []
  end.

Definition instanceOf {A} (o : Outcome A) : option Instance :=
  match o with
  | Returned _ this _ => Some this
  | Thrown => None
  end.

(** ** The methods of the class *)

Section PanDismissibleView.

Variable Constants : ScreenConstants.

Local Open Scope method_scope.

(** [_.get(style, 'left', 0)] *)
Definition get_or_zero (o : option Q) : jsnum :=
  match o with
  | Some q => Num q
  | None => Num 0
  end.

Definition setNativeProps (l t : jsnum) : Method unit :=
  this <- get ;;
  when (ref_current this)
    (emit (NativeProps l t) ;;
     modify (set_position l t)).

Definition initPositions : Method unit :=
  this <- get ;;
  setNativeProps (originalLeft this) (originalTop this) ;;
  this <- get ;;
  modify (set_channels (originalLeft this) (originalTop this)).

(** [layout_width] and [layout_height] are [event.nativeEvent.layout]. *)
Definition onLayout (props : Props) (layout_width layout_height : Q) : Method unit :=
  this <- get ;;
  when (isUndefined (height this))
    (modify (set_geometry (Num layout_width) (Num layout_height)
               (get_or_zero (style_left (style props)))
               (get_or_zero (style_top (style props)))) ;;
     initPositions).

Definition onPanStart : Method unit :=
  modify (set_swipe {| dir_x := None; dir_y := None |}).

Definition onDrag (deltas : AxisDeltas) : Method unit :=
  this <- get ;;
  let l := if truthy (ofOptQ (delta_x deltas))
           then Math_round (ofOptQ (delta_x deltas)) else originalLeft this in
  let t := if truthy (ofOptQ (delta_y deltas))
           then Math_round (ofOptQ (delta_y deltas)) else originalTop this in
  setNativeProps l t.

Definition onSwipe (swipeDirections : AxisDirections) : Method unit :=
  modify (set_swipe swipeDirections).

(** The pair [{isRight, isDown}]; [None] is [undefined]. *)
Definition getDismissAnimationDirection (props : Props) : option bool * option bool :=
  let swipeDirections := swipeDirections (context props) in
  let dragDirections := dragDirections (context props) in
  let hasHorizontalSwipe := isSet (dir_x swipeDirections) in
  let hasVerticalSwipe := isSet (dir_y swipeDirections) in
  if hasHorizontalSwipe || hasVerticalSwipe then
    (option_map (fun d => Direction_eqb d RIGHT) (dir_x swipeDirections),
     option_map (fun d => Direction_eqb d DOWN) (dir_y swipeDirections))
  else
    (* got here from a drag beyond threshold *)
    (option_map (fun d => Direction_eqb d RIGHT) (dir_x dragDirections),
     option_map (fun d => Direction_eqb d DOWN) (dir_y dragDirections)).

(** [toX] (and [toY]) of [animateDismiss]. *)
Definition dismissTarget (screen : Q) (extent : jsnum) (positive : option bool) : jsnum :=
  match positive with
  | Some b =>
      let maxSize := add (Num screen) extent in
      if b then maxSize else neg maxSize
  | None => Undefined
  end.

Definition timingTo (value : AnimatedValue) (to : jsnum) : list Animation :=
  if negb (isUndefined to)
  then [timing value (Math_round to) DEFAULT_DISMISS_ANIMATION_DURATION]
  else [].

Definition animateDismiss (isRight isDown : option bool) : Method unit :=
  this <- get ;;
  let toX := dismissTarget (screenWidth Constants) (width this) isRight in
  let toY := dismissTarget (screenHeight Constants) (height this) isDown in
  let animations :=
    timingTo (animTranslateX this) toX ++ timingTo (animTranslateY this) toY in
  modify (set_isAnimating true) ;;
  emit (ParallelStart animations DismissAnimation).

Definition springTo (props : Props) (value : AnimatedValue) (to : jsnum) : list Animation :=
  if negb (isUndefined to)
  then [spring value (Math_round to)
          (animationSpeed (animationOptions props))
          (animationBounciness (animationOptions props))]
  else [].

Definition animateToInitialPosition (props : Props) : Method unit :=
  this <- get ;;
  let toX := neg (left this) in
  let toY := neg (top this) in
  let animations :=
    springTo props (animTranslateX this) toX ++ springTo props (animTranslateY this) toY in
  modify (set_isAnimating true) ;;
  emit (ParallelStart animations InitAnimation).

(** The four-way test of [onPanEnd] on the rounded offset. *)
Definition beyondThreshold (props : Props) (this : Instance) : bool :=
  let endValue_x := Math_round (left this) in
  let endValue_y := Math_round (top this) in
  (includes (directions props) LEFT && le endValue_x (neg (thresholdX this)))
  || (includes (directions props) RIGHT && ge endValue_x (thresholdX this))
  || (includes (directions props) UP && le endValue_y (neg (thresholdY this)))
  || (includes (directions props) DOWN && ge endValue_y (thresholdY this)).

(** Reading [this.swipe.x] throws when [this.swipe] was never assigned. *)
Definition onPanEnd (props : Props) : Method unit :=
  this <- get ;;
  match swipe this with
  | None => throw
  | Some s =>
      if isSet (dir_x s) || isSet (dir_y s) then
        let '(isRight, isDown) := getDismissAnimationDirection props in
        animateDismiss isRight isDown
      else if beyondThreshold props this then
        let '(isRight, isDown) := getDismissAnimationDirection props in
        animateDismiss isRight isDown
      else
        animateToInitialPosition props
  end.

Definition onInitAnimationFinished : Method unit :=
  modify (set_isAnimating false) ;;
  initPositions.

(** The method [onDismiss]: [_.invoke(this.props, 'onDismiss')], which calls
    the prop of that name when there is one. *)
Definition invokeOnDismiss (props : Props) : Method unit :=
  when (onDismiss props) (emit DismissCallback).

Definition onDismissAnimationFinished (props : Props) (finished : bool) : Method unit :=
  when finished (invokeOnDismiss props).

Definition deltasChanged (d p : AxisDeltas) : bool :=
  negb (strict_eq (ofOptQ (delta_x d)) (ofOptQ (delta_x p)))
  || negb (strict_eq (ofOptQ (delta_y d)) (ofOptQ (delta_y p))).

Definition directionsChanged (d p : AxisDirections) : bool :=
  negb (dir_strict_eq (dir_x d) (dir_x p))
  || negb (dir_strict_eq (dir_y d) (dir_y p)).

(** The three conditions of [componentDidUpdate]. *)
Definition panChanged (prevProps props : Props) : bool :=
  negb (Bool.eqb (isPanning (context props)) (isPanning (context prevProps))).

Definition dragDelivered (prevProps props : Props) : bool :=
  isPanning (context props)
  && (truthy (ofOptQ (delta_x (dragDeltas (context props))))
      || truthy (ofOptQ (delta_y (dragDeltas (context props)))))
  && deltasChanged (dragDeltas (context props)) (dragDeltas (context prevProps)).

Definition swipeDelivered (prevProps props : Props) : bool :=
  isPanning (context props)
  && (isSet (dir_x (swipeDirections (context props)))
      || isSet (dir_y (swipeDirections (context props))))
  && directionsChanged (swipeDirections (context props))
                       (swipeDirections (context prevProps)).

(** [props] is [this.props], already the new props when React calls this. *)
Definition componentDidUpdate (prevProps props : Props) : Method unit :=
  this <- get ;;
  let isAnimating := isAnimating this in
  when (panChanged prevProps props)
    (if isPanning (context props) && negb isAnimating
     then (* do not start a new pan if we're still animating *)
          onPanStart
     else onPanEnd props) ;;
  when (dragDelivered prevProps props) (onDrag (dragDeltas (context props))) ;;
  when (swipeDelivered prevProps props) (onSwipe (swipeDirections (context props))).

(** The [transform] entry of the rendered style. *)
Inductive Transform : Type :=
| translateX (v : AnimatedValue)
| translateY (v : AnimatedValue).

Definition render (this : Instance) : list Transform :=
  if isAnimating this
  then [translateX (animTranslateX this); translateY (animTranslateY this)]
  else [].

(** ** The mounted component as an event-driven machine *)

Record Mounted : Type := {
  current_props : Props;
  instance : Instance
}.

Inductive Event : Type :=
| Layout (layout_width layout_height : Q)      (* the view reports its layout *)
| Update (nextProps : Props)                   (* new props, among them the pan context *)
| InitAnimationFinished                        (* the settle animation called back *)
| DismissAnimationFinished (finished : bool).  (* the dismiss animation called back *)

Definition handler (m : Mounted) (e : Event) : Method unit :=
  match e with
  | Layout w h => onLayout (current_props m) w h
  | Update nextProps => componentDidUpdate (current_props m) nextProps
  | InitAnimationFinished => onInitAnimationFinished
  | DismissAnimationFinished finished =>
      onDismissAnimationFinished (current_props m) finished
  end.

Definition props_after (m : Mounted) (e : Event) : Props :=
  match e with
  | Update nextProps => nextProps
  | _ => current_props m
  end.

(** One event; [None] when the handler throws. *)
Definition step (m : Mounted) (e : Event) : option (Mounted * list Effect) :=
  match handler m e (instance m) with
  | Returned _ this out =>
      Some ({| current_props := props_after m e; instance := this |}, out)
  | Thrown => None
  end.

Fixpoint run (m : Mounted) (es : list Event) : option (Mounted * list Effect) :=
  match es with
  | [] => Some (m, [])
  | e :: es' =>
      match step m e with
      | Some (m', out) =>
          match run m' es' with
          | Some (m'', out') => Some (m'', out ++ out')
          | None => None
          end
      | None => None
      end
  end.

(** After mounting: the constructor has run and the ref is attached. *)
Definition mount (props : Props) : Mounted :=
  {| current_props := props; instance := set_ref true constructor |}.

Definition reachable (props : Props) (m : Mounted) : Prop :=
  exists es out, run (mount props) es = Some (m, out).

End PanDismissibleView.

(** ** Vocabulary of the properties *)

(** What an outcome started: the animations and who hears of their end. *)
Definition started {A} (o : Outcome A) (animations : list Animation) (c : Completion) : Prop :=
  In (ParallelStart animations c) (effectsOf o).

Definition isDismissCallback (e : Effect) : bool :=
  match e with
  | DismissCallback => true
  | _ => false
  end.

Definition dismissCallbacks (out : list Effect) : nat :=
  length (filter isDismissCallback out).

(** The durations of the time-based animations that an output starts. *)
Definition timingDurations (e : Effect) : list Q :=
  match e with
  | ParallelStart animations _ =>
      flat_map (fun a => match a with
                         | timing _ _ d => [d]
                         | spring _ _ _ _ => []
                         end) animations
  | _ => []
  end.

Definition with_dismissAnimationDuration (d : jsnum) (p : Props) : Props :=
  {| directions := directions p; onDismiss := onDismiss p;
     animationOptions := animationOptions p;
     dismissAnimationDuration := d;
     style := style p; context := context p |}.

Definition with_context (c : Context) (p : Props) : Props :=
  {| directions := directions p; onDismiss := onDismiss p;
     animationOptions := animationOptions p;
     dismissAnimationDuration := dismissAnimationDuration p;
     style := style p; context := c |}.

(** The release test on the rounded offset [(l, t)] with thresholds
    [(tx, ty)], in the order the code checks it. *)
Definition thresholdReached (ds : list Direction) (l t tx ty : Q) : Prop :=
  (In LEFT ds /\ roundQ l <= - tx)
  \/ (In RIGHT ds /\ tx <= roundQ l)
  \/ (In UP ds /\ roundQ t <= - ty)
  \/ (In DOWN ds /\ ty <= roundQ t).

(** The off-screen position on one axis: the sum of the screen extent and
    the view extent, a double, signed by the exit side. *)
Definition offscreen (screen extent : Q) (positive : bool) : Q :=
  if positive then toDouble (screen + extent) else - toDouble (screen + extent).

Definition integral (q : Q) : Prop := exists z : Z, q == inject_Z z.

(** What [animateDismiss] asks of one axis, [extent] being what was measured
    of the view on that axis. *)
Definition axisDismissed (value : AnimatedValue) (screen : Q) (extent : jsnum)
    (resolved : option bool) (animations : list Animation) : Prop :=
  match resolved, extent with
  | None, _ => animations = []
  | Some positive, Num e =>
      animations = [timing value (Num (roundQ (offscreen screen e positive)))
                      DEFAULT_DISMISS_ANIMATION_DURATION]
      /\ Qabs (roundQ (offscreen screen e positive)
               - offscreen screen e positive) <= 1 # 2
      /\ (integral (toDouble (screen + e)) ->
          roundQ (offscreen screen e positive) == offscreen screen e positive)
      /\ (forall z : Z,
            (Z.abs z < 2 ^ 53)%Z -> screen + e == inject_Z z ->
            roundQ (offscreen screen e positive)
            == if positive then inject_Z z else - inject_Z z)
  | Some _, _ =>
      animations = [timing value NaN DEFAULT_DISMISS_ANIMATION_DURATION]
  end.

(** The axes that have a resolved direction. *)
Definition resolved (direction : option bool) : nat :=
  match direction with
  | Some _ => 1
  | None => 0
  end.

Definition resolvedAxes (isRight isDown : option bool) : nat :=
  resolved isRight + resolved isDown.

(** A time-based animation of the default duration. *)
Definition isDefaultTiming (a : Animation) : Prop :=
  exists value toValue, a = timing value toValue DEFAULT_DISMISS_ANIMATION_DURATION.

(** [_.get(style, key, 0)] as a number: the style's offset, 0 without one. *)
Definition styleOffset (o : option Q) : Q :=
  match o with
  | Some q => q
  | None => 0
  end.

(** The offset [onDrag] gives an axis. *)
Definition dragOffset (delta : option Q) (original : jsnum) : jsnum :=
  match delta with
  | Some d => if Qeq_bool d 0 then original else Num (roundQ d)
  | None => original
  end.

Definition isLayout (e : Event) : bool :=
  match e with
  | Layout _ _ => true
  | _ => false
  end.

(** The instance as it is until the first layout event: nothing measured
    yet, the view attached. *)
Definition unmeasured (this : Instance) : Prop :=
  isUndefined (height this) = true /\ ref_current this = true.

(** The dismiss animations of a trace that ran to their end. *)
Definition isCompletedDismissal (e : Event) : bool :=
  match e with
  | DismissAnimationFinished finished => finished
  | _ => false
  end.

Definition completedDismissals (es : list Event) : nat :=
  length (filter isCompletedDismissal es).

(** The events that leave the owner's [onDismiss] callback in place. *)
Definition keepsCallback (e : Event) : bool :=
  match e with
  | Update nextProps => onDismiss nextProps
  | _ => true
  end.

(** The geometry that [onLayout] records. *)
Definition geometry (this : Instance) : list jsnum :=
  [width this; height this; thresholdX this; thresholdY this;
   originalLeft this; originalTop this].

(** A property of every effect a method can emit. *)
Definition emitsOnly {A} (P : Effect -> Prop) (m : Method A) : Prop :=
  forall this, Forall P (effectsOf (m this)).

(** An invariant of the instance that a method maintains when it returns. *)
Definition maintains {A} (I : Instance -> Prop) (m : Method A) : Prop :=
  forall this a this' out, I this -> m this = Returned a this' out -> I this'.

(** Effects that keep quiet towards the owner, and effects that start only
    time-based animations of the default duration. *)
Definition noCallback (e : Effect) : Prop := isDismissCallback e = false.

Definition defaultTimings (e : Effect) : Prop :=
  Forall (fun d => d = DEFAULT_DISMISS_ANIMATION_DURATION) (timingDurations e).

(** The same props and events with another [dismissAnimationDuration]. *)
Definition retimed (d : jsnum) (m : Mounted) : Mounted :=
  {| current_props := with_dismissAnimationDuration d (current_props m);
     instance := instance m |}.

Definition retimedEvent (d : jsnum) (e : Event) : Event :=
  match e with
  | Update nextProps => Update (with_dismissAnimationDuration d nextProps)
  | _ => e
  end.

(** ** Sample data *)

Definition idle : Context :=
  {| isPanning := false;
     dragDeltas := {| delta_x := None; delta_y := None |};
     swipeDirections := {| dir_x := None; dir_y := None |};
     dragDirections := {| dir_x := None; dir_y := None |} |}.

(** [defaultProps], with an [onDismiss] callback and no style offsets. *)
Definition sampleProps : Props :=
  {| directions := allDirections;
     onDismiss := true;
     animationOptions := defaultAnimationOptions;
     dismissAnimationDuration := Undefined;
     style := {| style_left := None; style_top := None |};
     context := idle |}.

Definition sampleScreen : ScreenConstants :=
  {| screenWidth := 400; screenHeight := 800 |}.

(** Pan contexts as the provider delivers them. *)
Definition panning : Context :=
  {| isPanning := true;
     dragDeltas := {| delta_x := None; delta_y := None |};
     swipeDirections := {| dir_x := None; dir_y := None |};
     dragDirections := {| dir_x := None; dir_y := None |} |}.

Definition dragX (pan : bool) (d : Q) (dir : Direction) : Context :=
  {| isPanning := pan;
     dragDeltas := {| delta_x := Some d; delta_y := None |};
     swipeDirections := {| dir_x := None; dir_y := None |};
     dragDirections := {| dir_x := Some dir; dir_y := None |} |}.

Definition swipeX (pan : bool) (dir : Direction) : Context :=
  {| isPanning := pan;
     dragDeltas := {| delta_x := None; delta_y := None |};
     swipeDirections := {| dir_x := Some dir; dir_y := None |};
     dragDirections := {| dir_x := None; dir_y := None |} |}.

Definition deliver (c : Context) : Event := Update (with_context c sampleProps).

(** A state reached while the settle animation of a short drag is in flight. *)
Definition settlingTrace : list Event :=
  [Layout 100 200; deliver panning; deliver (dragX true 10 RIGHT);
   deliver (dragX false 10 RIGHT)].

Definition settling : Mounted :=
  Eval vm_compute in
    match run sampleScreen (mount sampleProps) settlingTrace with
    | Some (m, _) => m
    | None => mount sampleProps
    end.

(** A state reached while the dismiss animation of a long drag is in flight. *)
Definition dismissingTrace : list Event :=
  [Layout 100 200; deliver panning; deliver (dragX true 60 RIGHT);
   deliver (dragX false 60 RIGHT)].

Definition dismissing : Mounted :=
  Eval vm_compute in
    match run sampleScreen (mount sampleProps) dismissingTrace with
    | Some (m, _) => m
    | None => mount sampleProps
    end.

(** A state reached in the middle of a drag of 60 to the right. *)
Definition draggingTrace : list Event :=
  [Layout 100 200; deliver panning; deliver (dragX true 60 RIGHT)].

Definition dragging : Mounted :=
  Eval vm_compute in
    match run sampleScreen (mount sampleProps) draggingTrace with
    | Some (m, _) => m
    | None => mount sampleProps
    end.

(** A touch that arrives before the view has reported its layout. *)
Definition touched : Mounted :=
  Eval vm_compute in
    match run sampleScreen (mount sampleProps) [deliver panning] with
    | Some (m, _) => m
    | None => mount sampleProps
    end.

(** A view styled with offsets, touched before it has reported its layout. *)
Definition offsetProps : Props :=
  {| directions := allDirections;
     onDismiss := true;
     animationOptions := defaultAnimationOptions;
     dismissAnimationDuration := Undefined;
     style := {| style_left := Some 20; style_top := Some 35 |};
     context := idle |}.

Definition touchedOffset : Mounted :=
  Eval vm_compute in
    match run sampleScreen (mount offsetProps)
            [Update (with_context panning offsetProps)] with
    | Some (m, _) => m
    | None => mount offsetProps
    end.

(** A view whose measured width is 100.25. *)
Definition fractional : Mounted :=
  Eval vm_compute in
    match run sampleScreen (mount sampleProps) [Layout (401 # 4) 200] with
    | Some (m, _) => m
    | None => mount sampleProps
    end.

(** A flick to the left, then a slow drag back to the right, then release. *)
Definition swipeThenDragTrace : list Event :=
  [Layout 100 200; deliver panning; deliver (swipeX true LEFT);
   deliver (dragX true 10 RIGHT); deliver (dragX false 10 RIGHT)].

(** A new touch while the settle animation is in flight, then a drag. *)
Definition touchWhileSettling : list Event :=
  [deliver (dragX true 10 RIGHT); deliver (dragX true 30 RIGHT)].

(** After a completed dismissal: a new touch, a drag back to 3, release, the
    end of the superseded dismiss animation and the end of the settle
    animation. *)
Definition afterDismissal : list Event :=
  [DismissAnimationFinished true;
   deliver (dragX true 60 RIGHT); deliver (dragX true 3 LEFT);
   deliver (dragX false 3 LEFT);
   DismissAnimationFinished false; InitAnimationFinished].

Definition settledAgain : Mounted :=
  Eval vm_compute in
    match run sampleScreen dismissing afterDismissal with
    | Some (m, _) => m
    | None => mount sampleProps
    end.

(** What [componentDidUpdate] amounts to when the pan-start is not let
    through: the pan-end handler, then the drag and swipe deliveries. *)
Definition routedToPanEnd (K : ScreenConstants) (prevProps props : Props) : Method unit :=
  bind (onPanEnd K props) (fun _ =>
  bind (when (dragDelivered prevProps props) (onDrag (dragDeltas (context props)))) (fun _ =>
  when (swipeDelivered prevProps props) (onSwipe (swipeDirections (context props))))).

(** ** Vocabulary of the further properties *)

(** A swipe is held in [this.swipe]. *)
Definition hasSwipe (this : Instance) : bool :=
  match swipe this with
  | Some s => isSet (dir_x s) || isSet (dir_y s)
  | None => false
  end.

(** The instance and the output of [setNativeProps], which acts only when the
    ref is attached. *)
Definition positioned (l t : jsnum) (this : Instance) : Instance :=
  if ref_current this then set_position l t this else this.

Definition nativeOut (l t : jsnum) (this : Instance) : list Effect :=
  if ref_current this then [NativeProps l t] else [].

(** The instance after [onDrag]. *)
Definition dragged (deltas : AxisDeltas) (this : Instance) : Instance :=
  positioned (dragOffset (delta_x deltas) (originalLeft this))
             (dragOffset (delta_y deltas) (originalTop this)) this.

Definition draggedOut (deltas : AxisDeltas) (this : Instance) : list Effect :=
  nativeOut (dragOffset (delta_x deltas) (originalLeft this))
            (dragOffset (delta_y deltas) (originalTop this)) this.

(** The first of the three steps of [componentDidUpdate]. *)
Definition panStage (K : ScreenConstants) (prevProps props : Props) : Method unit :=
  fun this =>
    when (panChanged prevProps props)
      (if isPanning (context props) && negb (isAnimating this)
       then onPanStart
       else onPanEnd K props) this.

(** An offset that is the original one or a whole number of pixels. *)
Definition pixelOffset (original v : jsnum) : Prop :=
  v = original \/ exists z : Z, v = Num (inject_Z z).

Definition pixelOffsets (this : Instance) : Prop :=
  pixelOffset (originalLeft this) (left this)
  /\ pixelOffset (originalTop this) (top this).

(** What the view shows at rest: where it is, what was measured, and the
    values the animation channels start from. *)
Definition restOf (this : Instance) : list jsnum :=
  [left this; top this; initial (animTranslateX this); initial (animTranslateY this)]
  ++ geometry this.

Definition isSettleStart (e : Effect) : bool :=
  match e with
  | ParallelStart _ InitAnimation => true
  | _ => false
  end.

Definition isNativeMutation (e : Effect) : bool :=
  match e with
  | NativeProps _ _ => true
  | _ => false
  end.

(** Events that bring no [onDismiss] callback. *)
Definition dropsCallback (e : Event) : bool :=
  match e with
  | Update nextProps => negb (onDismiss nextProps)
  | _ => true
  end.

Definition isSettleCompletion (e : Event) : bool :=
  match e with
  | InitAnimationFinished => true
  | _ => false
  end.

Definition updates (ps : list Props) : list Event := map Update ps.

(** A swipe has been captured and the gesture is still going on. *)
Definition swiped : Mounted :=
  Eval vm_compute in
    match run sampleScreen (mount sampleProps)
            [Layout 100 200; deliver panning; deliver (swipeX true LEFT)] with
    | Some (m, _) => m
    | None => mount sampleProps
    end.

(** The view after a component was unmounted: the ref is detached. *)
Definition detached : Mounted :=
  {| current_props := current_props dragging;
     instance := set_ref false (instance dragging) |}.

(** The view rests: it sits at its original offsets and the animation
    channels start from them. *)
Definition atRest (this : Instance) : Prop :=
  left this = originalLeft this
  /\ top this = originalTop this
  /\ initial (animTranslateX this) = originalLeft this
  /\ initial (animTranslateY this) = originalTop this.

(** What the settle animation asks of an axis whose offset is [offset]. *)
Definition settleTarget (offset target : jsnum) : Prop :=
  match offset with
  | Num l =>
      exists q : Q,
        target = Num q
        /\ Qabs (l + q) <= 1 # 2
        /\ (integral l -> l + q == 0)
  | _ => target = NaN
  end.

(** Nothing has been measured: the thresholds are still unassigned. *)
Definition noThresholds (this : Instance) : Prop :=
  thresholdX this = Undefined /\ thresholdY this = Undefined.

(** The view right after its first layout. *)
Definition rested : Mounted :=
  Eval vm_compute in
    match run sampleScreen (mount sampleProps) [Layout 100 200] with
    | Some (m, _) => m
    | None => mount sampleProps
    end.

(** The state the swipe-then-drag gesture ends in: dismissing. *)
Definition swipeDismissed : Mounted :=
  Eval vm_compute in
    match run sampleScreen (mount sampleProps) swipeThenDragTrace with
    | Some (m, _) => m
    | None => mount sampleProps
    end.

(** Props that enable no direction, and props with no [onDismiss]. *)
Definition noDirections (c : Context) : Props :=
  {| directions := [];
     onDismiss := true;
     animationOptions := defaultAnimationOptions;
     dismissAnimationDuration := Undefined;
     style := {| style_left := None; style_top := None |};
     context := c |}.

Definition noCallbackProps (c : Context) : Props :=
  {| directions := allDirections;
     onDismiss := false;
     animationOptions := defaultAnimationOptions;
     dismissAnimationDuration := Undefined;
     style := {| style_left := None; style_top := None |};
     context := c |}.

(** A drag dismissal that runs to its end under props with no callback. *)
Definition noCallbackTrace : list Event :=
  [Layout 100 200; Update (noCallbackProps panning);
   Update (noCallbackProps (dragX true 60 RIGHT));
   Update (noCallbackProps (dragX false 60 RIGHT));
   DismissAnimationFinished true].

(** ** Rounding *)

Lemma roundQ_le (q : Q) : roundQ q <= q + (1 # 2).
Proof. unfold roundQ. apply Qfloor_le. Qed.

Lemma roundQ_gt (q : Q) : q - (1 # 2) < roundQ q.
Proof.
  unfold roundQ.
  pose proof (Qlt_floor (q + (1 # 2))) as H.
  rewrite inject_Z_plus in H.
  apply (Qplus_lt_l _ _ 1).
  setoid_replace (q - (1 # 2) + 1) with (q + (1 # 2)) by ring.
  exact H.
Qed.

Lemma roundQ_near (q : Q) : Qabs (roundQ q - q) <= 1 # 2.
Proof.
  apply Qabs_Qle_condition. split.
  - pose proof (roundQ_gt q) as H. apply Qlt_le_weak.
    apply (Qplus_lt_l _ _ q).
    setoid_replace (- (1 # 2) + q) with (q - (1 # 2)) by ring.
    setoid_replace (roundQ q - q + q) with (roundQ q) by ring.
    exact H.
  - pose proof (roundQ_le q) as H.
    apply (Qplus_le_l _ _ q).
    setoid_replace (roundQ q - q + q) with (roundQ q) by ring.
    setoid_replace ((1 # 2) + q) with (q + (1 # 2)) by ring.
    exact H.
Qed.

Lemma roundQ_inject_Z (z : Z) : roundQ (inject_Z z) = inject_Z z.
Proof.
  unfold roundQ. f_equal.
  assert (Hlo : (z <= Qfloor (inject_Z z + (1 # 2)))%Z).
  { rewrite <- (Qfloor_Z z) at 1. apply Qfloor_resp_le.
    rewrite <- (Qplus_0_r (inject_Z z)) at 1.
    apply Qplus_le_r. discriminate. }
  assert (Hhi : (Qfloor (inject_Z z + (1 # 2)) < z + 1)%Z).
  { rewrite Zlt_Qlt.
    apply Qle_lt_trans with (inject_Z z + (1 # 2)); [apply Qfloor_le|].
    rewrite inject_Z_plus. apply Qplus_lt_r. reflexivity. }
  lia.
Qed.

Lemma roundQ_integral (q : Q) : integral q -> roundQ q == q.
Proof.
  intros [z Hz].
  assert (E : roundQ q = roundQ (inject_Z z)).
  { unfold roundQ. f_equal. apply Qfloor_comp. rewrite Hz. reflexivity. }
  rewrite E, roundQ_inject_Z. symmetry. exact Hz.
Qed.

Lemma integral_opp (q : Q) : integral q -> integral (- q).
Proof.
  intros [z Hz]. exists (- z)%Z. rewrite inject_Z_opp, Hz. reflexivity.
Qed.

(** ** Double rounding *)

Lemma toDouble_comp (p q : Q) : p == q -> toDouble p = toDouble q.
Proof. intros H. unfold toDouble. rewrite (Qred_complete _ _ H). reflexivity. Qed.

Lemma roundEven_Z (x : Q) (m : Z) : x == inject_Z m -> roundEven x = m.
Proof.
  intros H. unfold roundEven.
  assert (F : Qfloor x = m) by (rewrite (Qfloor_comp _ _ H); apply Qfloor_Z).
  rewrite F.
  assert (L : x - inject_Z m < 1 # 2).
  { rewrite H. setoid_replace (inject_Z m - inject_Z m) with 0 by ring. reflexivity. }
  destruct (Qcompare (x - inject_Z m) (1 # 2)) eqn:C.
  - apply Qeq_alt in C. rewrite C in L. discriminate L.
  - reflexivity.
  - apply Qgt_alt in C. exfalso. apply (Qlt_irrefl (1 # 2)).
    apply Qlt_trans with (x - inject_Z m); assumption.
Qed.

Lemma Qpower_2_pos (k : Z) : (0 <= k)%Z -> Qpower 2 k == inject_Z (2 ^ k).
Proof. intros H. rewrite (Zpower_Qpower 2 k H). reflexivity. Qed.

Lemma Qred_inject_Z (z : Z) : Qred (inject_Z z) = inject_Z z.
Proof.
  unfold Qred, inject_Z.
  pose proof (Z.ggcd_gcd z 1) as G.
  pose proof (Z.ggcd_correct_divisors z 1) as D.
  destruct (Z.ggcd z 1) as [g [aa bb]]. simpl in *.
  rewrite Z.gcd_1_r in G. subst g. destruct D as [Da Db].
  rewrite Z.mul_1_l in Da, Db. subst aa bb. reflexivity.
Qed.

(** Whole numbers below 2^53 in magnitude are doubles. *)
Lemma toDouble_integer (z : Z) :
  (Z.abs z < 2 ^ 53)%Z -> toDouble (inject_Z z) == inject_Z z.
Proof.
  intros Hlt. unfold toDouble. rewrite Qred_inject_Z.
  destruct (Z.eq_dec z 0) as [->|Hnz]; [reflexivity|].
  assert (Hz : Qeq_bool (inject_Z z) 0 = false).
  { apply not_true_is_false. intros E. apply Qeq_bool_iff in E.
    unfold Qeq in E. simpl in E. lia. }
  rewrite Hz.
  set (a := Z.abs z).
  assert (Hpos : (0 < a)%Z) by (unfold a; lia).
  assert (Ha : Qabs (inject_Z z) = inject_Z a) by reflexivity.
  rewrite Ha.
  pose proof (Z.log2_spec a Hpos) as [Hlo Hhi].
  assert (Hn0 : (0 <= Z.log2 a)%Z) by apply Z.log2_nonneg.
  assert (Hn52 : (Z.log2 a <= 52)%Z).
  { destruct (Z_lt_le_dec (Z.log2 a) 53) as [H|H]; [lia|].
    exfalso. assert ((2 ^ 53 <= 2 ^ Z.log2 a)%Z) by (apply Z.pow_le_mono_r; lia).
    unfold a in *. lia. }
  assert (HL : Qlog2 (inject_Z a) = Z.log2 a).
  { unfold Qlog2. simpl Qnum. simpl Qden. simpl (Z.log2 1). rewrite Z.sub_0_r.
    assert (T : Qle_bool (Qpower 2 (Z.log2 a)) (inject_Z a) = true).
    { apply Qle_bool_iff. rewrite (Qpower_2_pos Hn0). rewrite <- Zle_Qle. exact Hlo. }
    rewrite T. reflexivity. }
  rewrite HL.
  rewrite Z.max_l by lia.
  set (k := (52 - Z.log2 a)%Z).
  assert (Hk : (0 <= k)%Z) by (unfold k; lia).
  replace (Z.log2 a - 52)%Z with (- k)%Z by (unfold k; lia).
  assert (P : Qpower 2 (- k) == / inject_Z (2 ^ k)).
  { rewrite Qpower_opp, (Qpower_2_pos Hk). reflexivity. }
  assert (Pnz : ~ inject_Z (2 ^ k) == 0).
  { intros E. unfold Qeq in E. simpl in E.
    assert (0 < 2 ^ k)%Z by (apply Z.pow_pos_nonneg; lia). lia. }
  assert (D : inject_Z a / Qpower 2 (- k) == inject_Z (a * 2 ^ k)).
  { rewrite P, inject_Z_mult. field. exact Pnz. }
  rewrite (@roundEven_Z _ _ D).
  assert (R : Qred (inject_Z (a * 2 ^ k) * Qpower 2 (- k)) == inject_Z a).
  { rewrite Qred_correct, P, inject_Z_mult. field. exact Pnz. }
  destruct (Qle_bool 0 (inject_Z z)) eqn:Hs.
  - rewrite R. apply Qle_bool_iff in Hs. unfold Qle in Hs. simpl in Hs.
    unfold a. rewrite Z.abs_eq by lia. reflexivity.
  - rewrite R.
    assert (Hneg : (z < 0)%Z).
    { destruct (Z_lt_le_dec z 0) as [H|H]; [exact H|].
      assert (Qle_bool 0 (inject_Z z) = true)
        by (apply Qle_bool_iff; unfold Qle; simpl; lia).
      congruence. }
    unfold a. rewrite Z.abs_neq by lia. rewrite inject_Z_opp. ring.
Qed.

(** ** Equations of the methods *)

Ltac unfold_monad :=
  unfold bind, get, modify, emit, when, ret, throw in *.

Lemma setNativeProps_attached (l t : jsnum) (this : Instance) :
  ref_current this = true ->
  setNativeProps l t this = Returned tt (set_position l t this) [NativeProps l t].
Proof. intros H. unfold setNativeProps. unfold_monad. rewrite H. reflexivity. Qed.

Lemma setNativeProps_detached (l t : jsnum) (this : Instance) :
  ref_current this = false ->
  setNativeProps l t this = Returned tt this [].
Proof. intros H. unfold setNativeProps. unfold_monad. rewrite H. reflexivity. Qed.

Lemma animateDismiss_eq (K : ScreenConstants) (isRight isDown : option bool) (this : Instance) :
  animateDismiss K isRight isDown this =
  Returned tt (set_isAnimating true this)
    [ParallelStart
       (timingTo (animTranslateX this) (dismissTarget (screenWidth K) (width this) isRight)
        ++ timingTo (animTranslateY this) (dismissTarget (screenHeight K) (height this) isDown))
       DismissAnimation].
Proof. reflexivity. Qed.

Lemma animateToInitialPosition_eq (props : Props) (this : Instance) :
  animateToInitialPosition props this =
  Returned tt (set_isAnimating true this)
    [ParallelStart
       (springTo props (animTranslateX this) (neg (left this))
        ++ springTo props (animTranslateY this) (neg (top this)))
       InitAnimation].
Proof. reflexivity. Qed.

Lemma onPanEnd_eq (K : ScreenConstants) (props : Props) (this : Instance) :
  onPanEnd K props this =
  match swipe this with
  | None => Thrown
  | Some s =>
      if isSet (dir_x s) || isSet (dir_y s) || beyondThreshold props this
      then animateDismiss K (fst (getDismissAnimationDirection props))
                            (snd (getDismissAnimationDirection props)) this
      else animateToInitialPosition props this
  end.
Proof.
  unfold onPanEnd. unfold_monad.
  destruct (swipe this) as [s|]; [|reflexivity].
  destruct (getDismissAnimationDirection props) as [r d]. simpl.
  destruct (isSet (dir_x s) || isSet (dir_y s)); simpl.
  - reflexivity.
  - destruct (beyondThreshold props this); reflexivity.
Qed.

(** A swipe captured on either axis always leads to [animateDismiss],
    whatever the offset and the [directions] prop. *)
Lemma onPanEnd_after_swipe (K : ScreenConstants) (props : Props) (this : Instance)
    (s : AxisDirections) :
  swipe this = Some s ->
  isSet (dir_x s) || isSet (dir_y s) = true ->
  onPanEnd K props this =
  animateDismiss K (fst (getDismissAnimationDirection props))
                   (snd (getDismissAnimationDirection props)) this.
Proof.
  intros Hs Hset. rewrite onPanEnd_eq, Hs, Hset. reflexivity.
Qed.

(** While the release context still reports the swipe, the exit side of each
    axis is that of the swipe. *)
Lemma getDismissAnimationDirection_of_swipe (props : Props) :
  isSet (dir_x (swipeDirections (context props)))
  || isSet (dir_y (swipeDirections (context props))) = true ->
  getDismissAnimationDirection props =
  (option_map (fun d => Direction_eqb d RIGHT) (dir_x (swipeDirections (context props))),
   option_map (fun d => Direction_eqb d DOWN) (dir_y (swipeDirections (context props)))).
Proof.
  intros H. unfold getDismissAnimationDirection. rewrite H. reflexivity.
Qed.

Lemma strict_eq_refl_ofOptQ (o : option Q) : strict_eq (ofOptQ o) (ofOptQ o) = true.
Proof.
  destruct o as [q|]; simpl; [|reflexivity].
  apply Qeq_bool_iff. reflexivity.
Qed.

Lemma dir_strict_eq_refl (o : option Direction) : dir_strict_eq o o = true.
Proof. destruct o as [[]|]; reflexivity. Qed.

(** The update that follows a [setState] has the props it had before: nothing
    happens. *)
Lemma componentDidUpdate_same_props (K : ScreenConstants) (props : Props) (this : Instance) :
  componentDidUpdate K props props this = Returned tt this [].
Proof.
  unfold componentDidUpdate, panChanged, dragDelivered, swipeDelivered,
    deltasChanged, directionsChanged.
  rewrite Bool.eqb_reflx, !strict_eq_refl_ofOptQ, !dir_strict_eq_refl.
  simpl. rewrite !andb_false_r. reflexivity.
Qed.

(** ** Which methods call back, and which animations they start *)

Lemma emitsOnly_bind {A B} (P : Effect -> Prop) (m : Method A) (k : A -> Method B) :
  emitsOnly P m -> (forall a, emitsOnly P (k a)) -> emitsOnly P (bind m k).
Proof.
  intros Hm Hk this. unfold bind.
  specialize (Hm this).
  destruct (m this) as [a this' out|]; simpl in *; [|constructor].
  specialize (Hk a this').
  destruct (k a this') as [b this'' out'|]; simpl in *; [|constructor].
  apply Forall_app. split; assumption.
Qed.

Lemma emitsOnly_ret {A} (P : Effect -> Prop) (a : A) : emitsOnly P (ret a).
Proof. intros this. constructor. Qed.

Lemma emitsOnly_get (P : Effect -> Prop) : emitsOnly P get.
Proof. intros this. constructor. Qed.

Lemma emitsOnly_modify (P : Effect -> Prop) (f : Instance -> Instance) :
  emitsOnly P (modify f).
Proof. intros this. constructor. Qed.

Lemma emitsOnly_throw {A} (P : Effect -> Prop) : emitsOnly P (@throw A).
Proof. intros this. constructor. Qed.

Lemma emitsOnly_emit (P : Effect -> Prop) (e : Effect) : P e -> emitsOnly P (emit e).
Proof. intros H this. simpl. constructor; [exact H|constructor]. Qed.

Lemma emitsOnly_when (P : Effect -> Prop) (b : bool) (m : Method unit) :
  emitsOnly P m -> emitsOnly P (when b m).
Proof. intros H. destruct b; simpl; [exact H|apply emitsOnly_ret]. Qed.

Create HintDb emits.
#[local] Hint Resolve emitsOnly_ret emitsOnly_get emitsOnly_modify emitsOnly_throw
  emitsOnly_when : emits.
#[local] Hint Extern 2 (emitsOnly _ (bind _ _)) =>
  apply emitsOnly_bind; [|intros ?] : emits.
#[local] Hint Extern 1 (emitsOnly _ (emit _)) =>
  apply emitsOnly_emit; simpl : emits.

Lemma timingTo_durations (v w : AnimatedValue) (a b : jsnum) (c : Completion) :
  defaultTimings (ParallelStart (timingTo v a ++ timingTo w b) c).
Proof.
  unfold defaultTimings, timingTo. simpl.
  destruct (isUndefined a), (isUndefined b); simpl; repeat constructor.
Qed.

Lemma springTo_durations (p : Props) (v w : AnimatedValue) (a b : jsnum) (c : Completion) :
  defaultTimings (ParallelStart (springTo p v a ++ springTo p w b) c).
Proof.
  unfold defaultTimings, springTo. simpl.
  destruct (isUndefined a), (isUndefined b); simpl; repeat constructor.
Qed.

Section Emits.

Variable K : ScreenConstants.
Variable P : Effect -> Prop.
Hypothesis P_native : forall l t, P (NativeProps l t).
Hypothesis P_dismiss : forall v w a b, P (ParallelStart (timingTo v a ++ timingTo w b) DismissAnimation).
Hypothesis P_settle : forall p v w a b, P (ParallelStart (springTo p v a ++ springTo p w b) InitAnimation).

Lemma emitsOnly_setNativeProps (l t : jsnum) : emitsOnly P (setNativeProps l t).
Proof. unfold setNativeProps. auto 10 with emits. Qed.

Lemma emitsOnly_initPositions : emitsOnly P initPositions.
Proof.
  unfold initPositions.
  apply emitsOnly_bind; [auto with emits|intros ?].
  apply emitsOnly_bind; [apply emitsOnly_setNativeProps|intros ?].
  auto with emits.
Qed.

Lemma emitsOnly_onLayout (props : Props) (w h : Q) : emitsOnly P (onLayout props w h).
Proof.
  unfold onLayout.
  apply emitsOnly_bind; [auto with emits|intros ?].
  apply emitsOnly_when.
  apply emitsOnly_bind; [auto with emits|intros ?].
  apply emitsOnly_initPositions.
Qed.

Lemma emitsOnly_onDrag (deltas : AxisDeltas) : emitsOnly P (onDrag deltas).
Proof.
  unfold onDrag.
  apply emitsOnly_bind; [auto with emits|intros ?].
  apply emitsOnly_setNativeProps.
Qed.

Lemma emitsOnly_onPanEnd (props : Props) : emitsOnly P (onPanEnd K props).
Proof.
  intros this. rewrite onPanEnd_eq.
  destruct (swipe this) as [s|]; [|constructor].
  destruct (isSet (dir_x s) || isSet (dir_y s) || beyondThreshold props this).
  - rewrite animateDismiss_eq. simpl. constructor; [apply P_dismiss|constructor].
  - rewrite animateToInitialPosition_eq. simpl. constructor; [apply P_settle|constructor].
Qed.

Lemma emitsOnly_onInitAnimationFinished : emitsOnly P onInitAnimationFinished.
Proof.
  unfold onInitAnimationFinished.
  apply emitsOnly_bind; [auto with emits|intros ?].
  apply emitsOnly_initPositions.
Qed.

Lemma emitsOnly_componentDidUpdate (prevProps props : Props) :
  emitsOnly P (componentDidUpdate K prevProps props).
Proof.
  unfold componentDidUpdate.
  apply emitsOnly_bind; [auto with emits|intros this].
  apply emitsOnly_bind; [|intros ?].
  - apply emitsOnly_when.
    destruct (isPanning (context props) && negb (isAnimating this)).
    + unfold onPanStart. auto with emits.
    + apply emitsOnly_onPanEnd.
  - apply emitsOnly_bind; [|intros ?].
    + apply emitsOnly_when, emitsOnly_onDrag.
    + apply emitsOnly_when. unfold onSwipe. auto with emits.
Qed.

End Emits.

Lemma noCallback_count (out : list Effect) :
  Forall noCallback out -> dismissCallbacks out = 0%nat.
Proof.
  unfold dismissCallbacks. induction 1 as [|e out He _ IH]; simpl; [reflexivity|].
  unfold noCallback in He. rewrite He. exact IH.
Qed.

(** ** Dismissal callback *)

Lemma dismissCallbacks_app (out out' : list Effect) :
  dismissCallbacks (out ++ out') = (dismissCallbacks out + dismissCallbacks out')%nat.
Proof. unfold dismissCallbacks. rewrite filter_app, length_app. reflexivity. Qed.

Lemma handler_dismissCallbacks (K : ScreenConstants) (m : Mounted) (e : Event) :
  onDismiss (current_props m) = true ->
  dismissCallbacks (effectsOf (handler K m e (instance m))) =
  if isCompletedDismissal e then 1%nat else 0%nat.
Proof.
  intros Hcb. destruct e as [w h|nextProps| |finished]; simpl.
  - apply noCallback_count, emitsOnly_onLayout. reflexivity.
  - apply noCallback_count, emitsOnly_componentDidUpdate; reflexivity.
  - apply noCallback_count, emitsOnly_onInitAnimationFinished. reflexivity.
  - unfold onDismissAnimationFinished, invokeOnDismiss. rewrite Hcb.
    destruct finished; reflexivity.
Qed.

Lemma run_dismissCallbacks (K : ScreenConstants) (es : list Event) :
  forall (m m' : Mounted) (out : list Effect),
    onDismiss (current_props m) = true ->
    forallb keepsCallback es = true ->
    run K m es = Some (m', out) ->
    dismissCallbacks out = completedDismissals es.
Proof.
  induction es as [|e es IH]; intros m m' out Hcb Hes H; simpl in H.
  - injection H as _ <-. reflexivity.
  - simpl in Hes. apply andb_true_iff in Hes. destruct Hes as [He Hes].
    pose proof (handler_dismissCallbacks K m e Hcb) as Hone.
    unfold step in H.
    destruct (handler K m e (instance m)) as [a this1 o1|] eqn:E; [|discriminate].
    destruct (run K _ es) as [[m2 o2]|] eqn:R; [|discriminate].
    injection H as _ <-.
    rewrite dismissCallbacks_app. simpl in Hone. rewrite Hone.
    assert (Hcb1 : onDismiss (current_props
                     {| current_props := props_after m e; instance := this1 |}) = true)
      by (destruct e; simpl in *; assumption).
    rewrite (IH _ _ _ Hcb1 Hes R).
    unfold completedDismissals. simpl.
    destruct (isCompletedDismissal e); reflexivity.
Qed.

(** C4. [onDismiss] is invoked exactly once by the completion of a dismiss
    animation that ran to its end ([finished = true]) and not at all when the
    animation was interrupted ([finished = false]); the completion handler
    always returns and leaves the instance as it was, and no other event
    makes the component call [onDismiss]: over any run, the calls are as many
    as the dismiss animations that ran to their end. *)
Theorem onDismiss_once_per_completed_dismissal (K : ScreenConstants) (m : Mounted) :
  onDismiss (current_props m) = true ->
  (forall finished,
     handler K m (DismissAnimationFinished finished) (instance m) =
     Returned tt (instance m) (if finished then [DismissCallback] else []))
  /\ (forall e,
        dismissCallbacks (effectsOf (handler K m e (instance m))) =
        if isCompletedDismissal e then 1%nat else 0%nat)
  /\ (forall (es : list Event) (m' : Mounted) (out : list Effect),
        forallb keepsCallback es = true ->
        run K m es = Some (m', out) ->
        dismissCallbacks out = completedDismissals es).
Proof.
  intros Hcb. split; [|split].
  - intros finished. simpl.
    unfold onDismissAnimationFinished, invokeOnDismiss. rewrite Hcb.
    destruct finished; reflexivity.
  - intros e. apply handler_dismissCallbacks, Hcb.
  - intros es m' out Hes R. eapply run_dismissCallbacks; [exact Hcb|exact Hes|exact R].
Qed.

Lemma onDismiss_once_per_completed_dismissal_witness :
  onDismiss (current_props dismissing) = true
  /\ handler sampleScreen dismissing (DismissAnimationFinished true) (instance dismissing)
     = Returned tt (instance dismissing) [DismissCallback]
  /\ handler sampleScreen dismissing (DismissAnimationFinished false) (instance dismissing)
     = Returned tt (instance dismissing) [].
Proof.
  split; [reflexivity|].
  destruct (@onDismiss_once_per_completed_dismissal sampleScreen dismissing eq_refl)
    as (Hdone & _ & _).
  split; [exact (Hdone true)|exact (Hdone false)].
Defined.

(** ** Duration of the dismiss animation *)

Lemma timingTo_length (value : AnimatedValue) (screen : Q) (extent : jsnum)
    (direction : option bool) :
  length (timingTo value (dismissTarget screen extent direction)) = resolved direction.
Proof. destruct direction as [[|]|], extent; reflexivity. Qed.

Lemma timingTo_default (value : AnimatedValue) (to : jsnum) :
  Forall isDefaultTiming (timingTo value to).
Proof.
  unfold timingTo. destruct (negb (isUndefined to)); constructor; [|constructor].
  exists value, (Math_round to). reflexivity.
Qed.

(** C5. Whatever the [dismissAnimationDuration] prop holds, the dismiss
    animation lasts [DEFAULT_DISMISS_ANIMATION_DURATION], 280 ms:
    [animateDismiss] starts one time-based animation for each axis that has a
    resolved direction, each of that duration, and nothing else; no handler's
    outcome depends on the prop, and no handler starts a time-based animation
    of another duration. *)
Theorem dismiss_duration_ignores_prop (K : ScreenConstants) (d : jsnum) (m : Mounted)
    (e : Event) (isRight isDown : option bool) :
  DEFAULT_DISMISS_ANIMATION_DURATION = 280
  /\ (exists animations : list Animation,
        animateDismiss K isRight isDown (instance m) =
        Returned tt (set_isAnimating true (instance m))
          [ParallelStart animations DismissAnimation]
        /\ length animations = resolvedAxes isRight isDown
        /\ Forall isDefaultTiming animations)
  /\ Forall defaultTimings (effectsOf (animateDismiss K isRight isDown (instance m)))
  /\ Forall defaultTimings (effectsOf (handler K (retimed d m) (retimedEvent d e) (instance m)))
  /\ handler K (retimed d m) (retimedEvent d e) (instance m) = handler K m e (instance m).
Proof.
  split; [reflexivity|]. split; [|split; [|split]].
  - eexists. split; [apply animateDismiss_eq|]. split.
    + rewrite length_app, !timingTo_length. reflexivity.
    + apply Forall_app. split; apply timingTo_default.
  - rewrite animateDismiss_eq. simpl.
    constructor; [apply timingTo_durations|constructor].
  - destruct e as [w h|nextProps| |finished]; simpl.
    + apply emitsOnly_onLayout. intros; constructor.
    + apply emitsOnly_componentDidUpdate.
      * intros; constructor.
      * intros; apply timingTo_durations.
      * intros; apply springTo_durations.
    + apply emitsOnly_onInitAnimationFinished. intros; constructor.
    + unfold onDismissAnimationFinished, invokeOnDismiss. unfold_monad.
      destruct finished, (onDismiss (with_dismissAnimationDuration d (current_props m)));
        simpl; repeat constructor.
  - destruct e as [w h|nextProps| |finished]; reflexivity.
Qed.

(** With [dismissAnimationDuration] set to 1000, the release of a drag past
    the threshold starts a dismiss animation of 280 ms. *)
Lemma dismiss_duration_ignores_prop_witness :
  dismissAnimationDuration (current_props (retimed (Num 1000) dragging)) = Num 1000
  /\ handler sampleScreen (retimed (Num 1000) dragging)
       (retimedEvent (Num 1000) (deliver (dragX false 60 RIGHT))) (instance dragging)
     = Returned tt (set_isAnimating true (instance dragging))
         [ParallelStart [timing (animTranslateX (instance dragging)) (Num 500) 280]
            DismissAnimation].
Proof.
  split; [reflexivity|].
  destruct (dismiss_duration_ignores_prop sampleScreen (Num 1000) dragging
              (deliver (dragX false 60 RIGHT)) None None) as (_ & _ & _ & _ & H).
  rewrite H. vm_compute. reflexivity.
Defined.

(** ** Rendering *)

(** C9 at a failing input.  While the dismiss animation of a drag to 60 is in
    flight, the state is reachable with [isAnimating] true and the transform
    rendered from the animation channels.  A new touch that drags to 20 then
    moves the view by direct mutation ([setNativeProps(20, 0)], [this.left]
    goes from 60 to 20) while the animated transform is still the rendered
    one: both positioning mechanisms are active at once. *)
Theorem both_mechanisms_active_during_dismiss_animation :
  reachable sampleScreen sampleProps dismissing
  /\ isAnimating (instance dismissing) = true
  /\ left (instance dismissing) = Num 60
  /\ render (instance dismissing)
     = [translateX (animTranslateX (instance dismissing));
        translateY (animTranslateY (instance dismissing))]
  /\ match step sampleScreen dismissing (deliver (dragX true 20 LEFT)) with
     | Some (m, out) =>
         last out DismissCallback = NativeProps (Num 20) (Num 0)
         /\ left (instance m) = Num 20
         /\ isAnimating (instance m) = true
         /\ render (instance m)
            = [translateX (animTranslateX (instance m));
               translateY (animTranslateY (instance m))]
     | None => False
     end.
Proof.
  split.
  - exists dismissingTrace. eexists. vm_compute. reflexivity.
  - vm_compute. repeat split.
Qed.

(** ** Invariants of the instance *)

Lemma maintains_bind {A B} (I : Instance -> Prop) (m : Method A) (k : A -> Method B) :
  maintains I m -> (forall a, maintains I (k a)) -> maintains I (bind m k).
Proof.
  intros Hm Hk this b this'' out HI. unfold bind.
  destruct (m this) as [a this' o1|] eqn:E1; [|discriminate].
  destruct (k a this') as [b' this2 o2|] eqn:E2; [|discriminate].
  intros H. injection H as _ <- _.
  eapply Hk; [|exact E2]. eapply Hm; [exact HI|exact E1].
Qed.

Lemma maintains_ret {A} (I : Instance -> Prop) (a : A) : maintains I (ret a).
Proof. intros this b this' out HI H. injection H as _ <- _. exact HI. Qed.

Lemma maintains_get (I : Instance -> Prop) : maintains I get.
Proof. intros this b this' out HI H. injection H as _ <- _. exact HI. Qed.

Lemma maintains_emit (I : Instance -> Prop) (e : Effect) : maintains I (emit e).
Proof. intros this b this' out HI H. injection H as _ <- _. exact HI. Qed.

Lemma maintains_throw {A} (I : Instance -> Prop) : maintains I (@throw A).
Proof. intros this b this' out HI H. discriminate. Qed.

Lemma maintains_modify (I : Instance -> Prop) (f : Instance -> Instance) :
  (forall i, I i -> I (f i)) -> maintains I (modify f).
Proof. intros Hf this b this' out HI H. injection H as _ <- _. apply Hf, HI. Qed.

Lemma maintains_when (I : Instance -> Prop) (b : bool) (m : Method unit) :
  maintains I m -> maintains I (when b m).
Proof. intros H. destruct b; simpl; [exact H|apply maintains_ret]. Qed.

Create HintDb inv.
#[local] Hint Resolve maintains_ret maintains_get maintains_emit maintains_throw
  maintains_when : inv.
#[local] Hint Extern 2 (maintains _ (bind _ _)) =>
  apply maintains_bind; [|intros ?] : inv.
#[local] Hint Extern 3 (maintains _ (modify _)) =>
  apply maintains_modify; intros ? ?; simpl; assumption : inv.

Section Maintained.

Variable K : ScreenConstants.

(** An invariant that reads neither the offsets, the swipe snapshot nor the
    animation state. *)
Variable I : Instance -> Prop.
Hypothesis I_position : forall l t i, I i -> I (set_position l t i).
Hypothesis I_channels : forall a b i, I i -> I (set_channels a b i).
Hypothesis I_swipe : forall s i, I i -> I (set_swipe s i).
Hypothesis I_animating : forall i, I i -> I (set_isAnimating true i).

Lemma maintains_setNativeProps (l t : jsnum) : maintains I (setNativeProps l t).
Proof.
  unfold setNativeProps.
  apply maintains_bind; [auto with inv|intros ?].
  apply maintains_when.
  apply maintains_bind; [auto with inv|intros ?].
  apply maintains_modify, I_position.
Qed.

Lemma maintains_initPositions : maintains I initPositions.
Proof.
  unfold initPositions.
  apply maintains_bind; [auto with inv|intros ?].
  apply maintains_bind; [apply maintains_setNativeProps|intros ?].
  apply maintains_bind; [auto with inv|intros ?].
  apply maintains_modify, I_channels.
Qed.

Lemma maintains_onDrag (deltas : AxisDeltas) : maintains I (onDrag deltas).
Proof.
  unfold onDrag.
  apply maintains_bind; [auto with inv|intros ?].
  apply maintains_setNativeProps.
Qed.

Lemma maintains_onPanEnd (props : Props) : maintains I (onPanEnd K props).
Proof.
  intros this a this' out HI. rewrite onPanEnd_eq.
  destruct (swipe this) as [s|]; [|discriminate].
  destruct (isSet (dir_x s) || isSet (dir_y s) || beyondThreshold props this).
  - rewrite animateDismiss_eq. intros H. injection H as _ <- _. apply I_animating, HI.
  - rewrite animateToInitialPosition_eq. intros H. injection H as _ <- _.
    apply I_animating, HI.
Qed.

Lemma maintains_componentDidUpdate (prevProps props : Props) :
  maintains I (componentDidUpdate K prevProps props).
Proof.
  unfold componentDidUpdate.
  apply maintains_bind; [auto with inv|intros this].
  apply maintains_bind; [|intros ?].
  - apply maintains_when.
    destruct (isPanning (context props) && negb (isAnimating this)).
    + apply maintains_modify, I_swipe.
    + apply maintains_onPanEnd.
  - apply maintains_bind; [|intros ?].
    + apply maintains_when, maintains_onDrag.
    + apply maintains_when, maintains_modify, I_swipe.
Qed.

Lemma maintains_onDismissAnimationFinished (props : Props) (finished : bool) :
  maintains I (onDismissAnimationFinished props finished).
Proof.
  unfold onDismissAnimationFinished, invokeOnDismiss. auto with inv.
Qed.

Lemma maintains_onInitAnimationFinished :
  (forall i, I i -> I (set_isAnimating false i)) ->
  maintains I onInitAnimationFinished.
Proof.
  intros Hf. unfold onInitAnimationFinished.
  apply maintains_bind; [apply maintains_modify, Hf|intros ?].
  apply maintains_initPositions.
Qed.

Lemma maintains_onLayout (props : Props) (w h : Q) :
  (forall a b c d i, I i -> I (set_geometry a b c d i)) ->
  maintains I (onLayout props w h).
Proof.
  intros Hf. unfold onLayout.
  apply maintains_bind; [auto with inv|intros ?].
  apply maintains_when.
  apply maintains_bind; [apply maintains_modify, Hf|intros ?].
  apply maintains_initPositions.
Qed.

End Maintained.

(** ** Layout capture *)

Lemma onLayout_first (props : Props) (w h : Q) (this : Instance) :
  isUndefined (height this) = true ->
  ref_current this = true ->
  let ol := get_or_zero (style_left (style props)) in
  let ot := get_or_zero (style_top (style props)) in
  onLayout props w h this =
  Returned tt
    (set_channels ol ot
       (set_position ol ot (set_geometry (Num w) (Num h) ol ot this)))
    [NativeProps ol ot].
Proof.
  intros Hh Hr. unfold onLayout, initPositions, setNativeProps. unfold_monad.
  rewrite Hh. simpl. rewrite Hr. reflexivity.
Qed.

Lemma onLayout_ignored (props : Props) (w h : Q) (this : Instance) :
  isUndefined (height this) = false ->
  onLayout props w h this = Returned tt this [].
Proof.
  intros Hh. unfold onLayout. unfold_monad. rewrite Hh. reflexivity.
Qed.

Lemma geometry_height (i j : Instance) :
  geometry i = geometry j -> height i = height j.
Proof. unfold geometry. intros H. injection H. auto. Qed.

Lemma handler_keeps_geometry (K : ScreenConstants) (m : Mounted) (e : Event)
    (a : unit) (this' : Instance) (out : list Effect) :
  isUndefined (height (instance m)) = false ->
  handler K m e (instance m) = Returned a this' out ->
  geometry this' = geometry (instance m).
Proof.
  intros Hh H.
  set (I := fun i : Instance => geometry i = geometry (instance m)).
  assert (HI : I (instance m)) by reflexivity.
  destruct e as [w h|nextProps| |finished]; simpl in H.
  - rewrite (onLayout_ignored _ _ _ _ Hh) in H. injection H as _ <- _. reflexivity.
  - assert (M : maintains I (componentDidUpdate K (current_props m) nextProps))
      by (apply maintains_componentDidUpdate; intros; assumption).
    exact (M _ _ _ _ HI H).
  - assert (M : maintains I onInitAnimationFinished)
      by (apply maintains_onInitAnimationFinished; intros; assumption).
    exact (M _ _ _ _ HI H).
  - assert (M : maintains I (onDismissAnimationFinished (current_props m) finished))
      by apply maintains_onDismissAnimationFinished.
    exact (M _ _ _ _ HI H).
Qed.

Lemma run_keeps_geometry (K : ScreenConstants) (es : list Event) :
  forall (m m' : Mounted) (out : list Effect),
    isUndefined (height (instance m)) = false ->
    run K m es = Some (m', out) ->
    geometry (instance m') = geometry (instance m).
Proof.
  induction es as [|e es IH]; intros m m' out Hh H; simpl in H.
  - injection H as <- _. reflexivity.
  - unfold step in H.
    destruct (handler K m e (instance m)) as [a this1 o1|] eqn:E; [|discriminate].
    destruct (run K _ es) as [[m2 o2]|] eqn:R; [|discriminate].
    injection H as <- _.
    pose proof (handler_keeps_geometry K m e Hh E) as G.
    assert (Hh1 : isUndefined (height this1) = false)
      by (rewrite (geometry_height G); exact Hh).
    rewrite (IH {| current_props := props_after m e; instance := this1 |} _ _ Hh1 R).
    exact G.
Qed.

Lemma handler_keeps_unmeasured (K : ScreenConstants) (m : Mounted) (e : Event)
    (a : unit) (this' : Instance) (out : list Effect) :
  isLayout e = false ->
  unmeasured (instance m) ->
  handler K m e (instance m) = Returned a this' out ->
  unmeasured this'.
Proof.
  intros He HI H.
  destruct e as [w h|nextProps| |finished]; simpl in H; [discriminate He| | |].
  - assert (M : maintains unmeasured (componentDidUpdate K (current_props m) nextProps))
      by (apply maintains_componentDidUpdate; intros; assumption).
    exact (M _ _ _ _ HI H).
  - assert (M : maintains unmeasured onInitAnimationFinished)
      by (apply maintains_onInitAnimationFinished; intros; assumption).
    exact (M _ _ _ _ HI H).
  - assert (M : maintains unmeasured (onDismissAnimationFinished (current_props m) finished))
      by apply maintains_onDismissAnimationFinished.
    exact (M _ _ _ _ HI H).
Qed.

Lemma run_keeps_unmeasured (K : ScreenConstants) (es : list Event) :
  forall (m m' : Mounted) (out : list Effect),
    existsb isLayout es = false ->
    unmeasured (instance m) ->
    run K m es = Some (m', out) ->
    unmeasured (instance m').
Proof.
  induction es as [|e es IH]; intros m m' out Hes HI H; simpl in H.
  - injection H as <- _. exact HI.
  - simpl in Hes. apply orb_false_iff in Hes. destruct Hes as [He Hes].
    unfold step in H.
    destruct (handler K m e (instance m)) as [a this1 o1|] eqn:E; [|discriminate].
    destruct (run K _ es) as [[m2 o2]|] eqn:R; [|discriminate].
    injection H as <- _.
    assert (H1 : unmeasured this1)
      by (eapply handler_keeps_unmeasured; [exact He|exact HI|exact E]).
    apply (IH {| current_props := props_after m e; instance := this1 |} _ _ Hes H1 R).
Qed.

Lemma get_or_zero_styleOffset (o : option Q) :
  get_or_zero o = Num (styleOffset o).
Proof. destruct o; reflexivity. Qed.

(** C7. The first layout event of a mount records width, height, the
    thresholds [width / 2] and [height / 2] and the style's [left] and [top]
    (0 for an offset the style does not give), and re-seeds the offsets and
    both animation channels to that origin; after it, whatever else happens,
    the recorded geometry stays as it is and a layout event changes nothing
    at all. *)
Theorem geometry_recorded_by_first_layout_only (K : ScreenConstants) (props : Props)
    (before : list Event) (m0 : Mounted) (out0 : list Effect) (w h : Q) :
  existsb isLayout before = false ->
  run K (mount props) before = Some (m0, out0) ->
  let ol := Num (styleOffset (style_left (style (current_props m0)))) in
  let ot := Num (styleOffset (style_top (style (current_props m0)))) in
  exists m1 : Mounted,
    step K m0 (Layout w h) = Some (m1, [NativeProps ol ot])
    /\ geometry (instance m1) = [Num w; Num h; Num (w / 2); Num (h / 2); ol; ot]
    /\ left (instance m1) = ol /\ top (instance m1) = ot
    /\ initial (animTranslateX (instance m1)) = ol
    /\ initial (animTranslateY (instance m1)) = ot
    /\ forall (es : list Event) (m : Mounted) (out : list Effect),
         run K m1 es = Some (m, out) ->
         geometry (instance m) = geometry (instance m1)
         /\ forall w' h', step K m (Layout w' h') = Some (m, []).
Proof.
  intros Hbefore R0 ol ot. subst ol ot.
  rewrite <- !get_or_zero_styleOffset.
  assert (U : unmeasured (instance m0)).
  { eapply run_keeps_unmeasured; [exact Hbefore| |exact R0]. split; reflexivity. }
  destruct U as [Hh Hr].
  eexists. split.
  { unfold step. simpl handler. rewrite (onLayout_first _ _ _ _ Hh Hr). reflexivity. }
  simpl. repeat (split; [reflexivity|]).
  intros es m out R.
  pose proof (fun Hd => run_keeps_geometry K es _ Hd R) as G.
  specialize (G eq_refl).
  split; [exact G|].
  intros w' h'. unfold step. simpl handler.
  rewrite onLayout_ignored.
  - destruct m; reflexivity.
  - rewrite (geometry_height G). reflexivity.
Qed.

(** A view styled with [left: 20] and [top: 35]. *)
Lemma geometry_recorded_by_first_layout_only_witness :
  existsb isLayout [Update (with_context panning offsetProps)] = false
  /\ run sampleScreen (mount offsetProps) [Update (with_context panning offsetProps)]
     = Some (touchedOffset, [])
  /\ exists m1 : Mounted,
       step sampleScreen touchedOffset (Layout 100 200)
       = Some (m1, [NativeProps (Num 20) (Num 35)])
       /\ geometry (instance m1)
          = [Num 100; Num 200; Num (100 / 2); Num (200 / 2); Num 20; Num 35]
       /\ left (instance m1) = Num 20 /\ top (instance m1) = Num 35
       /\ initial (animTranslateX (instance m1)) = Num 20
       /\ initial (animTranslateY (instance m1)) = Num 35
       /\ step sampleScreen m1 (Layout 300 50) = Some (m1, []).
Proof.
  assert (R0 : run sampleScreen (mount offsetProps)
                 [Update (with_context panning offsetProps)] = Some (touchedOffset, []))
    by (vm_compute; reflexivity).
  split; [reflexivity|]. split; [exact R0|].
  destruct (@geometry_recorded_by_first_layout_only sampleScreen offsetProps
              [Update (with_context panning offsetProps)] touchedOffset [] 100 200
              eq_refl R0)
    as (m1 & Hstep & Hgeo & Hl & Ht & Hx & Hy & Hlater).
  exists m1. repeat (split; [assumption|]).
  exact (proj2 (Hlater [] m1 [] eq_refl) 300 50).
Defined.

(** ** Release decision *)

Lemma Direction_eqb_eq (a b : Direction) : Direction_eqb a b = true <-> a = b.
Proof. destruct a, b; simpl; split; intros H; try reflexivity; discriminate. Qed.

Lemma includes_In (ds : list Direction) (d : Direction) :
  includes ds d = true <-> In d ds.
Proof.
  unfold includes. rewrite existsb_exists. split.
  - intros [x [Hin Heq]]. apply Direction_eqb_eq in Heq. subst. exact Hin.
  - intros Hin. exists d. split; [exact Hin|]. apply Direction_eqb_eq. reflexivity.
Qed.

Lemma beyondThreshold_spec (props : Props) (this : Instance) (l t tx ty : Q) :
  left this = Num l -> top this = Num t ->
  thresholdX this = Num tx -> thresholdY this = Num ty ->
  beyondThreshold props this = true <-> thresholdReached (directions props) l t tx ty.
Proof.
  intros Hl Ht Hx Hy. unfold beyondThreshold, thresholdReached, ge.
  rewrite Hl, Ht, Hx, Hy. simpl.
  rewrite !orb_true_iff, !andb_true_iff, !includes_In, !Qle_bool_iff.
  tauto.
Qed.

(** C2. On pan end with no captured swipe, the component dismisses exactly
    when LEFT is enabled and round(left) <= -thresholdX, or RIGHT is enabled
    and round(left) >= thresholdX, or UP is enabled and round(top) <=
    -thresholdY, or DOWN is enabled and round(top) >= thresholdY; otherwise it
    starts the settle animation, two springs that take back the offset. *)
Theorem release_without_swipe (K : ScreenConstants) (props : Props) (this : Instance)
    (l t tx ty : Q) :
  swipe this = Some {| dir_x := None; dir_y := None |} ->
  left this = Num l -> top this = Num t ->
  thresholdX this = Num tx -> thresholdY this = Num ty ->
  (thresholdReached (directions props) l t tx ty <->
   exists animations, started (onPanEnd K props this) animations DismissAnimation)
  /\ (thresholdReached (directions props) l t tx ty ->
      onPanEnd K props this =
      animateDismiss K (fst (getDismissAnimationDirection props))
                       (snd (getDismissAnimationDirection props)) this)
  /\ (~ thresholdReached (directions props) l t tx ty ->
      onPanEnd K props this =
      Returned tt (set_isAnimating true this)
        [ParallelStart
           [spring (animTranslateX this) (Num (roundQ (- l)))
              (animationSpeed (animationOptions props))
              (animationBounciness (animationOptions props));
            spring (animTranslateY this) (Num (roundQ (- t)))
              (animationSpeed (animationOptions props))
              (animationBounciness (animationOptions props))]
           InitAnimation]).
Proof.
  intros Hs Hl Ht Hx Hy.
  pose proof (beyondThreshold_spec props this Hl Ht Hx Hy) as Hspec.
  assert (Hyes : thresholdReached (directions props) l t tx ty ->
                 onPanEnd K props this =
                 animateDismiss K (fst (getDismissAnimationDirection props))
                   (snd (getDismissAnimationDirection props)) this).
  { intros Hr. apply Hspec in Hr. rewrite onPanEnd_eq, Hs. simpl. rewrite Hr. reflexivity. }
  assert (Hno : ~ thresholdReached (directions props) l t tx ty ->
                onPanEnd K props this = animateToInitialPosition props this).
  { intros Hr. rewrite onPanEnd_eq, Hs. simpl.
    destruct (beyondThreshold props this); [|reflexivity].
    exfalso. apply Hr, Hspec. reflexivity. }
  split; [|split].
  - split.
    + intros Hr. rewrite (Hyes Hr), animateDismiss_eq.
      eexists. left. reflexivity.
    + intros [animations Hst].
      destruct (beyondThreshold props this) eqn:Hb; [apply Hspec; reflexivity|].
      exfalso. unfold started in Hst.
      rewrite Hno, animateToInitialPosition_eq in Hst.
      * simpl in Hst. destruct Hst as [Hst|[]]. discriminate.
      * intros Hr. apply Hspec in Hr. discriminate.
  - exact Hyes.
  - intros Hr. rewrite (Hno Hr), animateToInitialPosition_eq, Hl, Ht. reflexivity.
Qed.

Lemma release_without_swipe_witness :
  swipe (instance dragging) = Some {| dir_x := None; dir_y := None |}
  /\ left (instance dragging) = Num 60 /\ top (instance dragging) = Num 0
  /\ thresholdX (instance dragging) = Num (100 # 2)
  /\ thresholdY (instance dragging) = Num (200 # 2)
  /\ thresholdReached (directions sampleProps) 60 0 (100 # 2) (200 # 2)
  /\ exists animations,
       started (onPanEnd sampleScreen (with_context (dragX false 60 RIGHT) sampleProps)
                  (instance dragging))
         animations DismissAnimation.
Proof.
  assert (R : thresholdReached (directions sampleProps) 60 0 (100 # 2) (200 # 2)).
  { right. left. split; [simpl; tauto|]. vm_compute. discriminate. }
  repeat (split; [reflexivity|]). split; [exact R|].
  apply (proj1 (proj1 (release_without_swipe sampleScreen
                         (with_context (dragX false 60 RIGHT) sampleProps)
                         (instance dragging) (l := 60) (t := 0)
                         (tx := 100 # 2) (ty := 200 # 2)
                         eq_refl eq_refl eq_refl eq_refl eq_refl))).
  exact R.
Defined.

(** ** Dismiss animation *)

(** The sum of two doubles is rounded: 400 + 0.49999999999999994 (a half
    less 2^-54) is 400.5, and 0.1 + 0.2 is 0.30000000000000004. *)
Lemma toDouble_examples :
  toDouble (400 + ((1 # 2) - (1 # 18014398509481984))) == 801 # 2
  /\ toDouble ((3602879701896397 # 36028797018963968)
               + (3602879701896397 # 18014398509481984))
     == 1351079888211149 # 4503599627370496
  /\ toDouble (400 + 100) == 500
  /\ toDouble (400 + (401 # 4)) == 2001 # 4.
Proof. repeat split; vm_compute; reflexivity. Qed.

Lemma offscreen_integral (screen extent : Q) (positive : bool) :
  integral (toDouble (screen + extent)) -> integral (offscreen screen extent positive).
Proof.
  intros H. destruct positive; simpl; [exact H|apply integral_opp, H].
Qed.

Lemma timingTo_axis (value : AnimatedValue) (screen : Q) (extent : jsnum)
    (resolved : option bool) :
  axisDismissed value screen extent resolved
    (timingTo value (dismissTarget screen extent resolved)).
Proof.
  destruct resolved as [positive|]; [|destruct extent; reflexivity].
  destruct extent as [| |e]; try (destruct positive; reflexivity).
  unfold axisDismissed. split; [destruct positive; reflexivity|]. split; [|split].
  - apply roundQ_near.
  - intros H. apply roundQ_integral, offscreen_integral, H.
  - intros z Hz Hsum.
    assert (E : toDouble (screen + e) == inject_Z z)
      by (rewrite (toDouble_comp Hsum); apply toDouble_integer, Hz).
    assert (I : integral (toDouble (screen + e))) by (exists z; exact E).
    rewrite (roundQ_integral (offscreen_integral screen e positive I)).
    unfold offscreen. destruct positive; rewrite E; reflexivity.
Qed.

(** C3, as the code has it.  A dismiss animation drives each axis that has
    a resolved direction to [Math.round] of the sum of the screen extent and
    the view's extent, as the double that sum is, positive for right and
    down and negative for left and up: an integer within half a pixel of that
    sum, and equal to it when the sum is an integer; before the view is
    measured the target is NaN.  An axis with no resolved direction gets no
    animation. *)
Theorem dismiss_targets_rounded_offscreen (K : ScreenConstants)
    (isRight isDown : option bool) (this : Instance) :
  exists onX onY : list Animation,
    animateDismiss K isRight isDown this =
    Returned tt (set_isAnimating true this) [ParallelStart (onX ++ onY) DismissAnimation]
    /\ axisDismissed (animTranslateX this) (screenWidth K) (width this) isRight onX
    /\ axisDismissed (animTranslateY this) (screenHeight K) (height this) isDown onY.
Proof.
  exists (timingTo (animTranslateX this) (dismissTarget (screenWidth K) (width this) isRight)),
         (timingTo (animTranslateY this) (dismissTarget (screenHeight K) (height this) isDown)).
  split; [|split].
  - rewrite animateDismiss_eq. reflexivity.
  - apply timingTo_axis.
  - apply timingTo_axis.
Qed.

(** View width 100, screen width 400, RIGHT resolved: the target is 500. *)
Lemma dismiss_targets_rounded_offscreen_witness :
  width (instance dragging) = Num 100 /\ height (instance dragging) = Num 200
  /\ exists onX onY : list Animation,
       animateDismiss sampleScreen (Some true) None (instance dragging) =
       Returned tt (set_isAnimating true (instance dragging))
         [ParallelStart (onX ++ onY) DismissAnimation]
       /\ onX = [timing (animTranslateX (instance dragging)) (Num 500) 280]
       /\ onY = [].
Proof.
  split; [reflexivity|]. split; [reflexivity|].
  destruct (dismiss_targets_rounded_offscreen sampleScreen (Some true) None
              (instance dragging))
    as (onX & onY & Hrun & HX & HY).
  exists onX, onY. split; [exact Hrun|]. split.
  - exact (proj1 HX).
  - exact HY.
Defined.

(** C3 as stated fails on a view 100.25 wide on a screen 400 wide: the
    animation to the right targets 500, which is not the screen extent plus
    the view's extent (500.25) and does not reach it.  It fails too on a view
    that was not measured yet: the resolved axis is animated, to NaN. *)
Lemma dismiss_target_falls_short :
  width (instance fractional) = Num (401 # 4)
  /\ screenWidth sampleScreen = 400
  /\ effectsOf (animateDismiss sampleScreen (Some true) None (instance fractional))
     = [ParallelStart [timing (animTranslateX (instance fractional)) (Num 500) 280]
          DismissAnimation]
  /\ ~ Qabs 500 == 400 + (401 # 4)
  /\ ~ 400 + (401 # 4) <= 500
  /\ width (instance touched) = Undefined
  /\ effectsOf (animateDismiss sampleScreen (Some true) None (instance touched))
     = [ParallelStart [timing (animTranslateX (instance touched)) NaN 280]
          DismissAnimation].
Proof.
  repeat (split; [reflexivity|]). split; [|split; [|split; reflexivity]];
    intros H; vm_compute in H.
  - discriminate.
  - apply H. reflexivity.
Qed.

(** ** Drag tracking *)

Lemma dragOffset_eq (delta : option Q) (original : jsnum) :
  (if truthy (ofOptQ delta) then Math_round (ofOptQ delta) else original)
  = dragOffset delta original.
Proof.
  destruct delta as [d|]; simpl; [|reflexivity].
  destruct (Qeq_bool d 0); reflexivity.
Qed.

Lemma onDrag_attached (deltas : AxisDeltas) (this : Instance) :
  ref_current this = true ->
  onDrag deltas this =
  Returned tt
    (set_position (dragOffset (delta_x deltas) (originalLeft this))
                  (dragOffset (delta_y deltas) (originalTop this)) this)
    [NativeProps (dragOffset (delta_x deltas) (originalLeft this))
                 (dragOffset (delta_y deltas) (originalTop this))].
Proof.
  intros Hr. unfold onDrag, bind at 1, get. rewrite !dragOffset_eq.
  rewrite (setNativeProps_attached _ _ _ Hr). reflexivity.
Qed.

(** C6, as the code has it.  On an update while panning, when the drag deltas
    changed and at least one of them is a nonzero number ([dragDelivered]),
    each axis gets the rounded delta if its delta is nonzero and the original
    offset if its delta is absent or zero, whatever the other axis reports;
    on any other update while panning the offsets stay as they are.  The only
    effect is the native style mutation: the animation channels and
    [isAnimating] are not touched and no animation is started. *)
Theorem drag_mirrors_nonzero_deltas (K : ScreenConstants) (prevProps props : Props)
    (this : Instance) :
  ref_current this = true ->
  isPanning (context prevProps) = true ->
  isPanning (context props) = true ->
  let deltas := dragDeltas (context props) in
  let l := dragOffset (delta_x deltas) (originalLeft this) in
  let t := dragOffset (delta_y deltas) (originalTop this) in
  exists this' : Instance,
    componentDidUpdate K prevProps props this =
    Returned tt this' (if dragDelivered prevProps props then [NativeProps l t] else [])
    /\ (left this', top this') =
       (if dragDelivered prevProps props then (l, t) else (left this, top this))
    /\ animTranslateX this' = animTranslateX this
    /\ animTranslateY this' = animTranslateY this
    /\ isAnimating this' = isAnimating this.
Proof.
  intros Hr Hprev Hpan deltas l t.
  unfold componentDidUpdate, bind at 1, get.
  unfold panChanged. rewrite Hprev, Hpan. simpl when at 1.
  unfold bind at 1, ret.
  destruct (dragDelivered prevProps props); simpl when at 1.
  - unfold bind at 1. rewrite (onDrag_attached _ _ Hr).
    destruct (swipeDelivered prevProps props); simpl;
      eexists; (split; [reflexivity|]); simpl; repeat split.
  - unfold bind at 1, ret.
    destruct (swipeDelivered prevProps props); simpl;
      eexists; (split; [reflexivity|]); simpl; repeat split.
Qed.

Lemma drag_mirrors_nonzero_deltas_witness :
  ref_current (instance dragging) = true
  /\ isPanning (dragX true 60 RIGHT) = true
  /\ isPanning (dragX true (151 # 2) RIGHT) = true
  /\ exists this' : Instance,
       componentDidUpdate sampleScreen
         (with_context (dragX true 60 RIGHT) sampleProps)
         (with_context (dragX true (151 # 2) RIGHT) sampleProps)
         (instance dragging)
       = Returned tt this' [NativeProps (Num 76) (Num 0)]
       /\ left this' = Num 76 /\ top this' = Num 0.
Proof.
  repeat (split; [reflexivity|]).
  destruct (drag_mirrors_nonzero_deltas sampleScreen
              (with_context (dragX true 60 RIGHT) sampleProps)
              (with_context (dragX true (151 # 2) RIGHT) sampleProps)
              (instance dragging) eq_refl eq_refl eq_refl)
    as (this' & Hrun & Hpos & _).
  exists this'. split; [exact Hrun|]. split.
  - exact (f_equal fst Hpos).
  - exact (f_equal snd Hpos).
Defined.

(** C6 as stated fails when a drag of 5 is followed by a reported delta of 0:
    the view stays at offset 5, which is neither the rounded delta (0) nor
    the original offset (0). *)
Lemma drag_back_to_zero_not_mirrored :
  match run sampleScreen (mount sampleProps)
          [Layout 100 200; deliver panning; deliver (dragX true 5 RIGHT);
           deliver (dragX true 0 RIGHT)] with
  | Some (m, _) =>
      isPanning (context (current_props m)) = true
      /\ delta_x (dragDeltas (context (current_props m))) = Some 0
      /\ left (instance m) = Num 5
      /\ Math_round (Num 0) = Num 0
      /\ originalLeft (instance m) = Num 0
      /\ ~ 5 == 0
  | None => False
  end.
Proof.
  vm_compute. repeat (split; [reflexivity|]). discriminate.
Qed.

(** ** Direction of a swipe dismissal *)

Lemma getDismissAnimationDirection_of_drag (props : Props) :
  swipeDirections (context props) = {| dir_x := None; dir_y := None |} ->
  getDismissAnimationDirection props =
  (option_map (fun d => Direction_eqb d RIGHT) (dir_x (dragDirections (context props))),
   option_map (fun d => Direction_eqb d DOWN) (dir_y (dragDirections (context props)))).
Proof.
  intros H. unfold getDismissAnimationDirection. rewrite H. reflexivity.
Qed.

(** C1 at a failing input.  A swipe to the left is captured, the gesture goes
    on as a drag to the right (the context then reports no swipe) and is
    released at offset 10, far below the threshold 50.  The component does
    dismiss, but to the right: the X channel is driven to +500, against the
    captured swipe, through the branch the source marks as reached only from
    a drag beyond threshold. *)
Theorem swipe_then_drag_dismisses_along_drag :
  match run sampleScreen (mount sampleProps) swipeThenDragTrace with
  | Some (m, out) =>
      swipe (instance m) = Some {| dir_x := Some LEFT; dir_y := None |}
      /\ left (instance m) = Num 10
      /\ thresholdX (instance m) = Num (100 / 2)
      /\ getDismissAnimationDirection (current_props m) = (Some true, None)
      /\ last out DismissCallback =
         ParallelStart [timing (animTranslateX (instance m)) (Num 500) 280]
           DismissAnimation
  | None => False
  end.
Proof. vm_compute. repeat split. Qed.

(** ** A touch during an animation *)

(** C8 at a failing input.  While the settle animation is in flight
    ([isAnimating] is true and no completion has arrived) a new touch arrives
    and then a drag of 30: the pan-start restarts the settle animation through
    the pan-end handler, and the drag is applied by direct mutation while
    [isAnimating] is still true. *)
Theorem drag_applied_during_settle_animation :
  reachable sampleScreen sampleProps settling
  /\ isAnimating (instance settling) = true
  /\ match run sampleScreen settling touchWhileSettling with
     | Some (m, out) =>
         isAnimating (instance m) = true
         /\ left (instance m) = Num 30
         /\ out =
            [ParallelStart
               [spring (animTranslateX (instance m)) (Num (-10)) (Num 20) (Num 6);
                spring (animTranslateY (instance m)) (Num 0) (Num 20) (Num 6)]
               InitAnimation;
             NativeProps (Num 30) (Num 0)]
     | None => False
     end.
Proof.
  split.
  - exists settlingTrace. eexists. vm_compute. reflexivity.
  - vm_compute. repeat split.
Qed.

(** ** The animating flag after a dismissal *)

Lemma handler_keeps_animating (K : ScreenConstants) (m : Mounted) (e : Event)
    (a : unit) (this' : Instance) (out : list Effect) :
  e <> InitAnimationFinished ->
  isAnimating (instance m) = true ->
  handler K m e (instance m) = Returned a this' out ->
  isAnimating this' = true.
Proof.
  intros He HI H.
  set (I := fun i : Instance => isAnimating i = true).
  destruct e as [w h|nextProps| |finished]; simpl in H.
  - assert (M : maintains I (onLayout (current_props m) w h))
      by (apply maintains_onLayout; intros; assumption).
    exact (M _ _ _ _ HI H).
  - assert (M : maintains I (componentDidUpdate K (current_props m) nextProps))
      by (apply maintains_componentDidUpdate; intros; solve [assumption|reflexivity]).
    exact (M _ _ _ _ HI H).
  - contradiction He. reflexivity.
  - assert (M : maintains I (onDismissAnimationFinished (current_props m) finished))
      by apply maintains_onDismissAnimationFinished.
    exact (M _ _ _ _ HI H).
Qed.

Lemma run_keeps_animating (K : ScreenConstants) (es : list Event) :
  forall (m m' : Mounted) (out : list Effect),
    ~ In InitAnimationFinished es ->
    isAnimating (instance m) = true ->
    run K m es = Some (m', out) ->
    isAnimating (instance m') = true.
Proof.
  induction es as [|e es IH]; intros m m' out Hes HI H; simpl in H.
  - injection H as <- _. exact HI.
  - unfold step in H.
    destruct (handler K m e (instance m)) as [a this1 o1|] eqn:E; [|discriminate].
    destruct (run K _ es) as [[m2 o2]|] eqn:R; [|discriminate].
    injection H as <- _.
    assert (He : e <> InitAnimationFinished)
      by (intros ->; apply Hes; left; reflexivity).
    assert (H1 : isAnimating this1 = true)
      by (eapply handler_keeps_animating; [exact He|exact HI|exact E]).
    apply (IH {| current_props := props_after m e; instance := this1 |} _ _
             (fun Hin => Hes (or_intror Hin)) H1 R).
Qed.

(** C10, as the code has it.  The dismiss completion handler never changes
    the instance, and [isAnimating], once true, stays true through every
    event other than the completion of a settle animation; as long as it is
    true, an update in which [isPanning] becomes true runs the pan-end handler
    instead of [onPanStart]. *)
Theorem isAnimating_reset_only_by_settle_completion (K : ScreenConstants) (m : Mounted) :
  isAnimating (instance m) = true ->
  (forall finished,
     instanceOf (handler K m (DismissAnimationFinished finished) (instance m))
     = Some (instance m))
  /\ (forall (es : list Event) (m' : Mounted) (out : list Effect),
        ~ In InitAnimationFinished es ->
        run K m es = Some (m', out) ->
        isAnimating (instance m') = true)
  /\ (forall nextProps,
        isPanning (context (current_props m)) = false ->
        isPanning (context nextProps) = true ->
        componentDidUpdate K (current_props m) nextProps (instance m)
        = routedToPanEnd K (current_props m) nextProps (instance m)).
Proof.
  intros HI. split; [|split].
  - intros finished. simpl.
    unfold onDismissAnimationFinished, invokeOnDismiss. unfold_monad.
    destruct finished, (onDismiss (current_props m)); reflexivity.
  - intros es m' out Hes R. eapply run_keeps_animating; [exact Hes|exact HI|exact R].
  - intros nextProps Hprev Hpan.
    unfold componentDidUpdate, routedToPanEnd, panChanged, bind at 1, get.
    rewrite Hprev, Hpan, HI. cbn [negb Bool.eqb andb when].
    match goal with |- match ?X with _ => _ end = _ => destruct X; reflexivity end.
Qed.

Lemma isAnimating_reset_only_by_settle_completion_witness :
  isAnimating (instance dismissing) = true
  /\ instanceOf (handler sampleScreen dismissing (DismissAnimationFinished true)
                   (instance dismissing)) = Some (instance dismissing)
  /\ componentDidUpdate sampleScreen (current_props dismissing)
       (with_context (dragX true 60 RIGHT) sampleProps) (instance dismissing)
     = routedToPanEnd sampleScreen (current_props dismissing)
         (with_context (dragX true 60 RIGHT) sampleProps) (instance dismissing).
Proof.
  split; [reflexivity|].
  destruct (isAnimating_reset_only_by_settle_completion sampleScreen dismissing eq_refl)
    as (Hdone & _ & Hrouted).
  split.
  - exact (Hdone true).
  - exact (Hrouted (with_context (dragX true 60 RIGHT) sampleProps) eq_refl eq_refl).
Defined.

(** C10 as stated fails.  After a completed dismissal the user touches the view
    again, drags it back to offset 3 and releases: the settle animation runs,
    its completion clears [isAnimating], and the next pan-start is handled by
    [onPanStart] (no animation starts) and followed by ordinary drag
    tracking. *)
Lemma isAnimating_cleared_after_dismissal :
  reachable sampleScreen sampleProps dismissing
  /\ run sampleScreen dismissing [DismissAnimationFinished true]
     = Some (dismissing, [DismissCallback])
  /\ (exists out, run sampleScreen dismissing afterDismissal = Some (settledAgain, out))
  /\ isAnimating (instance settledAgain) = false
  /\ handler sampleScreen settledAgain (deliver (dragX true 3 LEFT)) (instance settledAgain)
     = onPanStart (instance settledAgain)
  /\ match run sampleScreen settledAgain
             [deliver (dragX true 3 LEFT); deliver (dragX true 7 RIGHT)] with
     | Some (m, out) =>
         out = [NativeProps (Num 7) (Num 0)]
         /\ left (instance m) = Num 7
         /\ isAnimating (instance m) = false
     | None => False
     end.
Proof.
  split; [|split; [|split]].
  - exists dismissingTrace. eexists. vm_compute. reflexivity.
  - vm_compute. reflexivity.
  - eexists. vm_compute. reflexivity.
  - vm_compute. repeat split.
Qed.

(** * Further properties of the component *)

(** ** Explicit forms of the methods *)

Lemma setNativeProps_eq (l t : jsnum) (this : Instance) :
  setNativeProps l t this = Returned tt (positioned l t this) (nativeOut l t this).
Proof.
  unfold setNativeProps, positioned, nativeOut. unfold_monad.
  destruct (ref_current this); reflexivity.
Qed.

Lemma onDrag_eq (deltas : AxisDeltas) (this : Instance) :
  onDrag deltas this = Returned tt (dragged deltas this) (draggedOut deltas this).
Proof.
  unfold onDrag, bind at 1, get. rewrite !dragOffset_eq, setNativeProps_eq.
  reflexivity.
Qed.

Lemma positioned_original (l t : jsnum) (this : Instance) :
  originalLeft (positioned l t this) = originalLeft this
  /\ originalTop (positioned l t this) = originalTop this.
Proof. unfold positioned. destruct (ref_current this); split; reflexivity. Qed.

Lemma initPositions_eq (this : Instance) :
  initPositions this =
  Returned tt
    (set_channels (originalLeft this) (originalTop this)
       (positioned (originalLeft this) (originalTop this) this))
    (nativeOut (originalLeft this) (originalTop this) this).
Proof.
  unfold initPositions, bind at 1, get. unfold bind at 1.
  rewrite setNativeProps_eq. unfold bind, get, modify. simpl.
  destruct (positioned_original (originalLeft this) (originalTop this) this) as [-> ->].
  rewrite app_nil_r. reflexivity.
Qed.

Lemma onInitAnimationFinished_eq (this : Instance) :
  onInitAnimationFinished this =
  Returned tt
    (set_channels (originalLeft this) (originalTop this)
       (positioned (originalLeft this) (originalTop this) (set_isAnimating false this)))
    (nativeOut (originalLeft this) (originalTop this) this).
Proof.
  unfold onInitAnimationFinished, bind, modify. rewrite initPositions_eq. reflexivity.
Qed.

Lemma onPanEnd_returns (K : ScreenConstants) (props : Props) (this : Instance)
    (s : AxisDirections) :
  swipe this = Some s ->
  exists animations,
    onPanEnd K props this =
    Returned tt (set_isAnimating true this)
      [ParallelStart animations
         (if hasSwipe this || beyondThreshold props this
          then DismissAnimation else InitAnimation)].
Proof.
  intros Hs. rewrite onPanEnd_eq. unfold hasSwipe. rewrite Hs.
  destruct (isSet (dir_x s) || isSet (dir_y s) || beyondThreshold props this).
  - rewrite animateDismiss_eq. eexists. reflexivity.
  - rewrite animateToInitialPosition_eq. eexists. reflexivity.
Qed.

Lemma panStage_eq (K : ScreenConstants) (prevProps props : Props) (this : Instance) :
  panStage K prevProps props this =
  if panChanged prevProps props then
    if isPanning (context props) && negb (isAnimating this)
    then Returned tt (set_swipe {| dir_x := None; dir_y := None |} this) []
    else onPanEnd K props this
  else Returned tt this [].
Proof.
  unfold panStage, when.
  destruct (panChanged prevProps props); [|reflexivity].
  destruct (isPanning (context props) && negb (isAnimating this)); reflexivity.
Qed.

Lemma componentDidUpdate_stages (K : ScreenConstants) (prevProps props : Props)
    (this : Instance) :
  componentDidUpdate K prevProps props this =
  match panStage K prevProps props this with
  | Returned _ this1 out1 =>
      let this2 := if dragDelivered prevProps props
                   then dragged (dragDeltas (context props)) this1 else this1 in
      Returned tt
        (if swipeDelivered prevProps props
         then set_swipe (swipeDirections (context props)) this2 else this2)
        (out1 ++ if dragDelivered prevProps props
                 then draggedOut (dragDeltas (context props)) this1 else [])
  | Thrown => Thrown
  end.
Proof.
  unfold componentDidUpdate, bind at 1, get. unfold bind at 1.
  change (when (panChanged prevProps props)
            (if isPanning (context props) && negb (isAnimating this)
             then onPanStart else onPanEnd K props) this)
    with (panStage K prevProps props this).
  destruct (panStage K prevProps props this) as [a this1 out1|]; [|reflexivity].
  unfold bind, when.
  destruct (dragDelivered prevProps props).
  - rewrite onDrag_eq.
    destruct (swipeDelivered prevProps props); simpl; rewrite app_nil_r; reflexivity.
  - destruct (swipeDelivered prevProps props); simpl; reflexivity.
Qed.

Lemma onLayout_eq (props : Props) (w h : Q) (this : Instance) :
  onLayout props w h this =
  if isUndefined (height this) then
    Returned tt
      (set_channels (get_or_zero (style_left (style props)))
         (get_or_zero (style_top (style props)))
         (positioned (get_or_zero (style_left (style props)))
            (get_or_zero (style_top (style props)))
            (set_geometry (Num w) (Num h)
               (get_or_zero (style_left (style props)))
               (get_or_zero (style_top (style props))) this)))
      (nativeOut (get_or_zero (style_left (style props)))
         (get_or_zero (style_top (style props))) this)
  else Returned tt this [].
Proof.
  unfold onLayout, bind at 1, get, when.
  destruct (isUndefined (height this)); [|reflexivity].
  unfold bind, modify. rewrite initPositions_eq. reflexivity.
Qed.

Lemma onDismissAnimationFinished_eq (props : Props) (finished : bool) (this : Instance) :
  onDismissAnimationFinished props finished this =
  Returned tt this (if finished && onDismiss props then [DismissCallback] else []).
Proof.
  unfold onDismissAnimationFinished, invokeOnDismiss. unfold_monad.
  destruct finished, (onDismiss props); reflexivity.
Qed.

Ltac split_ifs :=
  repeat match goal with
         | |- context [if ?b then _ else _] => destruct b
         end.

Ltac split_ifs_simpl :=
  repeat (match goal with
          | |- context [if ?b then _ else _] => destruct b
          end; simpl).

(** ** A captured swipe *)

Lemma hasSwipe_positioned (l t : jsnum) (this : Instance) :
  hasSwipe (positioned l t this) = hasSwipe this.
Proof. unfold positioned. destruct (ref_current this); reflexivity. Qed.

Lemma isAnimating_positioned (l t : jsnum) (this : Instance) :
  isAnimating (positioned l t this) = isAnimating this.
Proof. unfold positioned. destruct (ref_current this); reflexivity. Qed.

Lemma swipeDelivered_set (prevProps props : Props) :
  swipeDelivered prevProps props = true ->
  isSet (dir_x (swipeDirections (context props)))
  || isSet (dir_y (swipeDirections (context props))) = true.
Proof.
  unfold swipeDelivered. rewrite !andb_true_iff. intros [[_ H] _]. exact H.
Qed.

(** The drag and swipe steps of [componentDidUpdate] never lose a swipe and
    never touch [isAnimating]. *)
Lemma deliveries_keep_swipe (prevProps props : Props) (this : Instance) :
  let this2 := if dragDelivered prevProps props
               then dragged (dragDeltas (context props)) this else this in
  let this3 := if swipeDelivered prevProps props
               then set_swipe (swipeDirections (context props)) this2 else this2 in
  (hasSwipe this = true -> hasSwipe this3 = true)
  /\ isAnimating this3 = isAnimating this.
Proof.
  simpl. unfold dragged.
  destruct (swipeDelivered prevProps props) eqn:Hsw.
  - apply swipeDelivered_set in Hsw. unfold hasSwipe at 2. simpl. split.
    + intros _. exact Hsw.
    + destruct (dragDelivered prevProps props); [apply isAnimating_positioned|reflexivity].
  - destruct (dragDelivered prevProps props).
    + rewrite hasSwipe_positioned, isAnimating_positioned. split; auto.
    + split; auto.
Qed.

Lemma hasSwipe_assigned (this : Instance) :
  hasSwipe this = true -> exists s, swipe this = Some s.
Proof.
  unfold hasSwipe. destruct (swipe this) as [s|]; [eauto|discriminate].
Qed.

(** A tick of the gesture: the pan goes on. *)
Lemma tick_keeps_swipe (K : ScreenConstants) (m : Mounted) (p : Props) :
  hasSwipe (instance m) = true ->
  isPanning (context (current_props m)) = true ->
  isPanning (context p) = true ->
  exists m' out,
    step K m (Update p) = Some (m', out)
    /\ hasSwipe (instance m') = true
    /\ current_props m' = p.
Proof.
  intros Hs Hprev Hnext. unfold step. simpl handler.
  rewrite componentDidUpdate_stages, panStage_eq.
  unfold panChanged. rewrite Hprev, Hnext. simpl.
  eexists; eexists. split; [reflexivity|]. simpl. split; [|reflexivity].
  apply (deliveries_keep_swipe (current_props m) p (instance m)), Hs.
Qed.

(** The release of a gesture that holds a swipe. *)
Lemma release_with_swipe (K : ScreenConstants) (m : Mounted) (release : Props) :
  hasSwipe (instance m) = true ->
  isPanning (context (current_props m)) = true ->
  isPanning (context release) = false ->
  exists animations,
    step K m (Update release) =
    Some ({| current_props := release; instance := set_isAnimating true (instance m) |},
          [ParallelStart animations DismissAnimation]).
Proof.
  intros Hs Hprev Hnext. unfold step. simpl handler.
  rewrite componentDidUpdate_stages, panStage_eq.
  unfold panChanged, dragDelivered, swipeDelivered. rewrite Hprev, Hnext. simpl.
  destruct (hasSwipe_assigned _ Hs) as [s Hsome].
  destruct (onPanEnd_returns K release (instance m) Hsome) as [animations ->].
  rewrite Hs. simpl. exists animations. reflexivity.
Qed.

(** X3. Once a swipe is held, whatever drag and swipe deliveries follow while
    the pan goes on, the release starts a dismiss animation, and it is the
    last thing the gesture does; offsets, thresholds and the [directions]
    prop play no part. *)
Theorem captured_swipe_dismisses_on_release (K : ScreenConstants) (ticks : list Props)
    (release : Props) :
  forall m : Mounted,
    hasSwipe (instance m) = true ->
    isPanning (context (current_props m)) = true ->
    forallb (fun p => isPanning (context p)) ticks = true ->
    isPanning (context release) = false ->
    exists m' out animations,
      run K m (updates ticks ++ [Update release])
      = Some (m', out ++ [ParallelStart animations DismissAnimation])
      /\ isAnimating (instance m') = true
      /\ hasSwipe (instance m') = true.
Proof.
  induction ticks as [|p ticks IH]; intros m Hs Hprev Hticks Hrel.
  - destruct (release_with_swipe K m release Hs Hprev Hrel) as [animations Hstep].
    eexists; exists [], animations. simpl. rewrite Hstep. simpl.
    split; [reflexivity|]. split; [reflexivity|exact Hs].
  - simpl in Hticks. apply andb_true_iff in Hticks. destruct Hticks as [Hp Hticks].
    destruct (tick_keeps_swipe K m p Hs Hprev Hp) as (m1 & o1 & Hstep & Hs1 & Hp1).
    assert (Hprev1 : isPanning (context (current_props m1)) = true)
      by (rewrite Hp1; exact Hp).
    destruct (IH m1 Hs1 Hprev1 Hticks Hrel) as (m' & out & animations & Hrun & Ha & Hs').
    exists m', (o1 ++ out), animations. simpl. rewrite Hstep, Hrun.
    rewrite app_assoc. auto.
Qed.

Lemma captured_swipe_dismisses_on_release_witness :
  hasSwipe (instance swiped) = true
  /\ isPanning (context (current_props swiped)) = true
  /\ exists m' out animations,
       run sampleScreen swiped
         (updates [with_context (dragX true 10 RIGHT) sampleProps]
          ++ [Update (with_context (dragX false 10 RIGHT) sampleProps)])
       = Some (m', out ++ [ParallelStart animations DismissAnimation])
       /\ isAnimating (instance m') = true
       /\ hasSwipe (instance m') = true.
Proof.
  split; [reflexivity|]. split; [reflexivity|].
  exact (@captured_swipe_dismisses_on_release sampleScreen
           [with_context (dragX true 10 RIGHT) sampleProps]
           (with_context (dragX false 10 RIGHT) sampleProps)
           swiped eq_refl eq_refl eq_refl eq_refl).
Defined.

(** ** After a swipe dismissal *)

Lemma draggedOut_no_settle (deltas : AxisDeltas) (this : Instance) :
  existsb isSettleStart (draggedOut deltas this) = false.
Proof. unfold draggedOut, nativeOut. destruct (ref_current this); reflexivity. Qed.

Lemma step_swipe_animating (K : ScreenConstants) (m : Mounted) (e : Event) :
  hasSwipe (instance m) = true ->
  isAnimating (instance m) = true ->
  isSettleCompletion e = false ->
  exists m' out,
    step K m e = Some (m', out)
    /\ hasSwipe (instance m') = true
    /\ isAnimating (instance m') = true
    /\ existsb isSettleStart out = false.
Proof.
  intros Hs Ha He. unfold step.
  destruct e as [w h|nextProps| |finished]; simpl handler; [| |discriminate He|].
  - rewrite onLayout_eq. unfold positioned, nativeOut.
    destruct m as [p i]; destruct i; simpl in *.
    split_ifs; eexists; eexists; (split; [reflexivity|]); simpl; auto.
  - rewrite componentDidUpdate_stages, panStage_eq. rewrite Ha, andb_false_r.
    destruct (hasSwipe_assigned _ Hs) as [s Hsome].
    destruct (onPanEnd_returns K nextProps (instance m) Hsome) as [animations ->].
    rewrite Hs. simpl orb. cbv iota.
    destruct (panChanged (current_props m) nextProps).
    + eexists; eexists. split; [reflexivity|]. simpl instance.
      pose proof (deliveries_keep_swipe (current_props m) nextProps
                    (set_isAnimating true (instance m))) as [Hk Hi].
      split; [apply Hk; exact Hs|]. split; [rewrite Hi; reflexivity|].
      simpl. destruct (dragDelivered (current_props m) nextProps);
        [apply draggedOut_no_settle|reflexivity].
    + eexists; eexists. split; [reflexivity|]. simpl instance.
      pose proof (deliveries_keep_swipe (current_props m) nextProps (instance m))
        as [Hk Hi].
      split; [apply Hk; exact Hs|]. split; [rewrite Hi; exact Ha|].
      simpl. destruct (dragDelivered (current_props m) nextProps);
        [apply draggedOut_no_settle|reflexivity].
  - rewrite onDismissAnimationFinished_eq.
    eexists; eexists. split; [reflexivity|]. simpl.
    split; [exact Hs|]. split; [exact Ha|].
    destruct (finished && onDismiss (current_props m)); reflexivity.
Qed.

(** X4. After a dismissal that a swipe triggered, the component never settles
    again by itself: as long as no settle completion arrives, every event is
    handled without exception, [isAnimating] stays true, the swipe stays in
    [this.swipe] ([onPanStart] is never reached) and no settle animation is
    started. *)
Theorem swipe_dismissal_never_settles (K : ScreenConstants) (es : list Event) :
  forall m : Mounted,
    hasSwipe (instance m) = true ->
    isAnimating (instance m) = true ->
    existsb isSettleCompletion es = false ->
    exists m' out,
      run K m es = Some (m', out)
      /\ hasSwipe (instance m') = true
      /\ isAnimating (instance m') = true
      /\ existsb isSettleStart out = false.
Proof.
  induction es as [|e es IH]; intros m Hs Ha Hes.
  - exists m, []. simpl. auto.
  - simpl in Hes. apply orb_false_iff in Hes. destruct Hes as [He Hes].
    destruct (step_swipe_animating K m e Hs Ha He) as (m1 & o1 & Hstep & Hs1 & Ha1 & Ho1).
    destruct (IH m1 Hs1 Ha1 Hes) as (m2 & o2 & Hrun & Hs2 & Ha2 & Ho2).
    exists m2, (o1 ++ o2). simpl. rewrite Hstep, Hrun.
    split; [reflexivity|]. split; [exact Hs2|]. split; [exact Ha2|].
    rewrite existsb_app, Ho1, Ho2. reflexivity.
Qed.

(** ** A detached view *)

Lemma step_detached (K : ScreenConstants) (m m' : Mounted) (e : Event)
    (out : list Effect) :
  ref_current (instance m) = false ->
  step K m e = Some (m', out) ->
  ref_current (instance m') = false
  /\ left (instance m') = left (instance m)
  /\ top (instance m') = top (instance m)
  /\ existsb isNativeMutation out = false.
Proof.
  intros Hr. unfold step.
  destruct e as [w h|nextProps| |finished]; simpl handler.
  - rewrite onLayout_eq. unfold positioned, nativeOut.
    destruct m as [p i]; destruct i; simpl in *; subst; simpl.
    split_ifs_simpl; intros H; injection H as <- <-; simpl; auto.
  - rewrite componentDidUpdate_stages, panStage_eq.
    destruct (swipe (instance m)) as [s|] eqn:Hs.
    + destruct (onPanEnd_returns K nextProps (instance m) Hs) as [animations ->].
      unfold dragged, draggedOut, positioned, nativeOut.
      destruct m as [p i]; destruct i; simpl in *; subst; simpl.
      split_ifs_simpl; intros H; injection H as <- <-; simpl; auto.
    + rewrite (onPanEnd_eq K nextProps (instance m)), Hs.
      unfold dragged, draggedOut, positioned, nativeOut.
      destruct m as [p i]; destruct i; simpl in *; subst; simpl.
      split_ifs_simpl; intros H; try discriminate H; injection H as <- <-; simpl; auto.
  - rewrite onInitAnimationFinished_eq. unfold positioned, nativeOut.
    destruct m as [p i]; destruct i; simpl in *; subst; simpl.
    intros H; injection H as <- <-; simpl; auto.
  - rewrite onDismissAnimationFinished_eq.
    intros H; injection H as <- <-; simpl. repeat (split; [assumption || reflexivity|]).
    destruct (finished && onDismiss (current_props m)); reflexivity.
Qed.

(** X5. While the view reference is not attached, no event moves the view:
    over any run no native style mutation is issued and the recorded offsets
    [this.left] and [this.top] keep their values, drags and animation
    completions included. *)
Theorem detached_view_is_never_moved (K : ScreenConstants) (es : list Event) :
  forall (m m' : Mounted) (out : list Effect),
    ref_current (instance m) = false ->
    run K m es = Some (m', out) ->
    left (instance m') = left (instance m)
    /\ top (instance m') = top (instance m)
    /\ existsb isNativeMutation out = false.
Proof.
  induction es as [|e es IH]; intros m m' out Hr H; simpl in H.
  - injection H as <- <-. auto.
  - destruct (step K m e) as [[m1 o1]|] eqn:Hstep; [|discriminate].
    destruct (run K m1 es) as [[m2 o2]|] eqn:Hrun; [|discriminate].
    injection H as <- <-.
    destruct (step_detached K m e Hr Hstep) as (Hr1 & Hl1 & Ht1 & Ho1).
    destruct (IH m1 m2 o2 Hr1 Hrun) as (Hl2 & Ht2 & Ho2).
    rewrite Hl2, Ht2, Hl1, Ht1, existsb_app, Ho1, Ho2. auto.
Qed.

Lemma detached_view_is_never_moved_witness :
  ref_current (instance detached) = false
  /\ exists m' out,
       run sampleScreen detached
         [deliver (dragX true 80 RIGHT); InitAnimationFinished] = Some (m', out)
       /\ left (instance m') = Num 60
       /\ existsb isNativeMutation out = false.
Proof.
  split; [reflexivity|].
  destruct (run sampleScreen detached
              [deliver (dragX true 80 RIGHT); InitAnimationFinished])
    as [[m' out]|] eqn:R; [|vm_compute in R; discriminate R].
  exists m', out. split; [reflexivity|].
  destruct (@detached_view_is_never_moved sampleScreen _ detached m' out eq_refl R)
    as (Hl & _ & Ho).
  split; [exact Hl|exact Ho].
Defined.

(** ** Whole pixels *)

Lemma pixelOffset_dragOffset (delta : option Q) (original : jsnum) :
  pixelOffset original (dragOffset delta original).
Proof.
  destruct delta as [d|]; simpl; [|left; reflexivity].
  destruct (Qeq_bool d 0); [left; reflexivity|].
  right. exists (Qfloor (d + (1 # 2))). reflexivity.
Qed.

Lemma step_pixelOffsets (K : ScreenConstants) (m m' : Mounted) (e : Event)
    (out : list Effect) :
  ref_current (instance m) = true ->
  pixelOffsets (instance m) ->
  step K m e = Some (m', out) ->
  ref_current (instance m') = true /\ pixelOffsets (instance m').
Proof.
  intros Hr Hp. unfold step, pixelOffsets in *.
  destruct e as [w h|nextProps| |finished]; simpl handler.
  - rewrite onLayout_eq. unfold positioned.
    destruct m as [p i]; destruct i; simpl in *; subst; simpl.
    split_ifs_simpl; intros H; injection H as <- <-; simpl;
      (split; [reflexivity|]); try exact Hp; split; left; reflexivity.
  - rewrite componentDidUpdate_stages, panStage_eq.
    assert (Hd : forall this, ref_current this = true ->
                 pixelOffset (originalLeft this) (left this)
                 /\ pixelOffset (originalTop this) (top this) ->
                 let this2 := if dragDelivered (current_props m) nextProps
                              then dragged (dragDeltas (context nextProps)) this
                              else this in
                 let this3 := if swipeDelivered (current_props m) nextProps
                              then set_swipe (swipeDirections (context nextProps)) this2
                              else this2 in
                 ref_current this3 = true
                 /\ pixelOffset (originalLeft this3) (left this3)
                 /\ pixelOffset (originalTop this3) (top this3)).
    { intros this Hrt Hpt. unfold dragged, positioned. rewrite Hrt.
      destruct (swipeDelivered _ _), (dragDelivered _ _); simpl;
        (split; [exact Hrt|]); try exact Hpt;
        split; apply pixelOffset_dragOffset. }
    destruct (panChanged (current_props m) nextProps).
    + destruct (isPanning (context nextProps) && negb (isAnimating (instance m))).
      * intros H; injection H as <- <-. simpl instance.
        apply (Hd (set_swipe _ (instance m))); assumption.
      * destruct (swipe (instance m)) as [s|] eqn:Hs.
        -- destruct (onPanEnd_returns K nextProps (instance m) Hs) as [animations ->].
           intros H; injection H as <- <-. simpl instance.
           apply (Hd (set_isAnimating true (instance m))); assumption.
        -- rewrite onPanEnd_eq, Hs. discriminate.
    + intros H; injection H as <- <-. simpl instance. apply Hd; assumption.
  - rewrite onInitAnimationFinished_eq. unfold positioned.
    destruct m as [p i]; destruct i; simpl in *; subst; simpl.
    intros H; injection H as <- <-; simpl.
    split; [reflexivity|]. split; left; reflexivity.
  - rewrite onDismissAnimationFinished_eq.
    intros H; injection H as <- <-; simpl. auto.
Qed.

Lemma run_pixelOffsets (K : ScreenConstants) (es : list Event) :
  forall (m m' : Mounted) (out : list Effect),
    ref_current (instance m) = true ->
    pixelOffsets (instance m) ->
    run K m es = Some (m', out) ->
    ref_current (instance m') = true /\ pixelOffsets (instance m').
Proof.
  induction es as [|e es IH]; intros m m' out Hr Hp R; simpl in R.
  - injection R as <- _. auto.
  - destruct (step K m e) as [[m1 o1]|] eqn:Hstep; [|discriminate].
    destruct (run K m1 es) as [[m2 o2]|] eqn:Hrun; [|discriminate].
    injection R as <- _.
    destruct (step_pixelOffsets K m e Hr Hp Hstep) as [Hr1 Hp1].
    exact (IH m1 m2 o2 Hr1 Hp1 Hrun).
Qed.

(** X6. In every state reachable from a mount, each recorded offset is
    either the original offset of its axis or a whole number of pixels, and
    the view reference stays attached. *)
Theorem offsets_are_original_or_whole_pixels (K : ScreenConstants) (props : Props)
    (m : Mounted) :
  reachable K props m ->
  ref_current (instance m) = true /\ pixelOffsets (instance m).
Proof.
  intros (es & out & R).
  eapply run_pixelOffsets; [| |exact R].
  - reflexivity.
  - split; left; reflexivity.
Qed.

Lemma offsets_are_original_or_whole_pixels_witness :
  reachable sampleScreen sampleProps dragging
  /\ ref_current (instance dragging) = true
  /\ pixelOffsets (instance dragging).
Proof.
  assert (R : reachable sampleScreen sampleProps dragging).
  { exists draggingTrace. eexists. vm_compute. reflexivity. }
  split; [exact R|].
  exact (offsets_are_original_or_whole_pixels R).
Defined.

(** ** Back to rest *)

(** X7. From a state in which the view rests (as it does right after the
    first layout), whatever gesture and animations follow, the completion of
    the settle animation puts the view back where it rested: one native
    mutation to the original offsets, the same offsets, channel seeds and
    geometry as at rest, [isAnimating] false and the identity transform. *)
Theorem settle_completion_restores_rest (K : ScreenConstants) (es : list Event)
    (rest m : Mounted) (out : list Effect) :
  ref_current (instance rest) = true ->
  isUndefined (height (instance rest)) = false ->
  atRest (instance rest) ->
  run K rest es = Some (m, out) ->
  exists m' : Mounted,
    step K m InitAnimationFinished
    = Some (m', [NativeProps (originalLeft (instance rest)) (originalTop (instance rest))])
    /\ restOf (instance m') = restOf (instance rest)
    /\ isAnimating (instance m') = false
    /\ render (instance m') = [].
Proof.
  intros Hr Hh (Hl & Ht & Hx & Hy) R.
  pose proof (run_keeps_geometry K es rest Hh R) as G.
  assert (Hrm : ref_current (instance m) = true).
  { assert (P : pixelOffsets (instance rest))
      by (split; left; assumption).
    exact (proj1 (run_pixelOffsets K es rest Hr P R)). }
  unfold step. simpl handler. rewrite onInitAnimationFinished_eq.
  unfold positioned, nativeOut. simpl ref_current. rewrite Hrm.
  assert (Gl : originalLeft (instance m) = originalLeft (instance rest))
    by (unfold geometry in G; injection G; auto).
  assert (Gt : originalTop (instance m) = originalTop (instance rest))
    by (unfold geometry in G; injection G; auto).
  rewrite Gl, Gt.
  eexists. split; [reflexivity|]. simpl instance. split; [|split; reflexivity].
  unfold restOf. rewrite Hl, Ht, Hx, Hy. simpl. f_equal. f_equal. f_equal. f_equal.
  exact G.
Qed.

Lemma settle_completion_restores_rest_witness :
  ref_current (instance rested) = true
  /\ isUndefined (height (instance rested)) = false
  /\ atRest (instance rested)
  /\ (exists out,
        run sampleScreen rested
          [deliver panning; deliver (dragX true 10 RIGHT); deliver (dragX false 10 RIGHT)]
        = Some (settling, out))
  /\ exists m' : Mounted,
       step sampleScreen settling InitAnimationFinished
       = Some (m', [NativeProps (Num 0) (Num 0)])
       /\ restOf (instance m') = restOf (instance rested)
       /\ isAnimating (instance m') = false.
Proof.
  assert (A : atRest (instance rested)) by (repeat split).
  assert (R : exists out,
                run sampleScreen rested
                  [deliver panning; deliver (dragX true 10 RIGHT);
                   deliver (dragX false 10 RIGHT)]
                = Some (settling, out))
    by (eexists; vm_compute; reflexivity).
  split; [reflexivity|]. split; [reflexivity|]. split; [exact A|]. split; [exact R|].
  destruct R as [out R].
  destruct (@settle_completion_restores_rest sampleScreen _ rested settling out
              eq_refl eq_refl A R) as (m' & Hstep & Hrest & Hanim & _).
  exists m'. split; [exact Hstep|]. split; [exact Hrest|exact Hanim].
Defined.

(** ** Updates that bring nothing new *)

(** X8. An update whose pan context is the one of the previous props does
    nothing, whatever else changed in the props ([directions], [style],
    the animation options, the callback). *)
Theorem update_without_context_change_is_noop (K : ScreenConstants)
    (prevProps props : Props) (this : Instance) :
  context props = context prevProps ->
  componentDidUpdate K prevProps props this = Returned tt this [].
Proof.
  intros Hc. rewrite componentDidUpdate_stages, panStage_eq.
  unfold panChanged, dragDelivered, swipeDelivered, deltasChanged, directionsChanged.
  rewrite Hc, Bool.eqb_reflx, !strict_eq_refl_ofOptQ, !dir_strict_eq_refl.
  simpl. rewrite !andb_false_r. reflexivity.
Qed.

Lemma update_without_context_change_is_noop_witness :
  context (noDirections (dragX true 60 RIGHT)) = context (current_props dragging)
  /\ componentDidUpdate sampleScreen (current_props dragging)
       (noDirections (dragX true 60 RIGHT)) (instance dragging)
     = Returned tt (instance dragging) [].
Proof.
  split; [reflexivity|].
  exact (@update_without_context_change_is_noop sampleScreen (current_props dragging)
           (noDirections (dragX true 60 RIGHT)) (instance dragging) eq_refl).
Defined.

(** ** What a drag release can and cannot do *)

Lemma started_dismiss_iff (K : ScreenConstants) (props : Props) (this : Instance)
    (s : AxisDirections) :
  swipe this = Some s ->
  (exists animations, started (onPanEnd K props this) animations DismissAnimation)
  <-> hasSwipe this || beyondThreshold props this = true.
Proof.
  intros Hs. destruct (onPanEnd_returns K props this Hs) as [animations E].
  unfold started. rewrite E. simpl.
  destruct (hasSwipe this || beyondThreshold props this); split.
  - reflexivity.
  - intros _. exists animations. left. reflexivity.
  - intros [a [H|[]]]. discriminate.
  - discriminate.
Qed.

Lemma beyondThreshold_no_directions (props : Props) (this : Instance) :
  directions props = [] -> beyondThreshold props this = false.
Proof. intros H. unfold beyondThreshold. rewrite H. reflexivity. Qed.

Lemma beyondThreshold_noThresholds (props : Props) (this : Instance) :
  noThresholds this -> beyondThreshold props this = false.
Proof.
  intros [Hx Hy]. unfold beyondThreshold, ge. rewrite Hx, Hy. simpl.
  destruct (Math_round (left this)), (Math_round (top this)); simpl;
    rewrite !andb_false_r; reflexivity.
Qed.

(** X9. When the [directions] prop is empty, a release dismisses if and only
    if a swipe is held: no drag, however far, dismisses the view. *)
Theorem no_direction_only_swipe_dismisses (K : ScreenConstants) (props : Props)
    (this : Instance) (s : AxisDirections) :
  directions props = [] ->
  swipe this = Some s ->
  (exists animations, started (onPanEnd K props this) animations DismissAnimation)
  <-> hasSwipe this = true.
Proof.
  intros Hd Hs. rewrite (started_dismiss_iff K props this Hs).
  rewrite (beyondThreshold_no_directions props this Hd), orb_false_r. reflexivity.
Qed.

Lemma no_direction_only_swipe_dismisses_witness :
  directions (noDirections (dragX false 60 RIGHT)) = []
  /\ swipe (instance dragging) = Some {| dir_x := None; dir_y := None |}
  /\ ~ exists animations,
         started (onPanEnd sampleScreen (noDirections (dragX false 60 RIGHT))
                    (instance dragging))
           animations DismissAnimation.
Proof.
  split; [reflexivity|]. split; [reflexivity|].
  intros H.
  apply (proj1 (@no_direction_only_swipe_dismisses sampleScreen
                  (noDirections (dragX false 60 RIGHT)) (instance dragging)
                  _ eq_refl eq_refl)) in H.
  discriminate H.
Defined.

Lemma handler_keeps_noThresholds (K : ScreenConstants) (m : Mounted) (e : Event)
    (a : unit) (this' : Instance) (out : list Effect) :
  isLayout e = false ->
  noThresholds (instance m) ->
  handler K m e (instance m) = Returned a this' out ->
  noThresholds this'.
Proof.
  intros He HI H.
  destruct e as [w h|nextProps| |finished]; simpl in H; [discriminate He| | |].
  - assert (M : maintains noThresholds (componentDidUpdate K (current_props m) nextProps))
      by (apply maintains_componentDidUpdate; intros; assumption).
    exact (M _ _ _ _ HI H).
  - assert (M : maintains noThresholds onInitAnimationFinished)
      by (apply maintains_onInitAnimationFinished; intros; assumption).
    exact (M _ _ _ _ HI H).
  - assert (M : maintains noThresholds
                  (onDismissAnimationFinished (current_props m) finished))
      by apply maintains_onDismissAnimationFinished.
    exact (M _ _ _ _ HI H).
Qed.

Lemma run_keeps_noThresholds (K : ScreenConstants) (es : list Event) :
  forall (m m' : Mounted) (out : list Effect),
    existsb isLayout es = false ->
    noThresholds (instance m) ->
    run K m es = Some (m', out) ->
    noThresholds (instance m').
Proof.
  induction es as [|e es IH]; intros m m' out Hes HI H; simpl in H.
  - injection H as <- _. exact HI.
  - simpl in Hes. apply orb_false_iff in Hes. destruct Hes as [He Hes].
    unfold step in H.
    destruct (handler K m e (instance m)) as [a this1 o1|] eqn:E; [|discriminate].
    destruct (run K _ es) as [[m2 o2]|] eqn:R; [|discriminate].
    injection H as <- _.
    assert (H1 : noThresholds this1)
      by (eapply handler_keeps_noThresholds; [exact He|exact HI|exact E]).
    apply (IH {| current_props := props_after m e; instance := this1 |} _ _ Hes H1 R).
Qed.

(** X10. Before the first layout event of a mount the thresholds are
    unassigned, so a release dismisses if and only if a swipe is held: no
    drag distance dismisses a view that was not measured. *)
Theorem unmeasured_view_only_swipe_dismisses (K : ScreenConstants) (mounted props : Props)
    (before : list Event) (m : Mounted) (out : list Effect) (s : AxisDirections) :
  existsb isLayout before = false ->
  run K (mount mounted) before = Some (m, out) ->
  swipe (instance m) = Some s ->
  (exists animations, started (onPanEnd K props (instance m)) animations DismissAnimation)
  <-> hasSwipe (instance m) = true.
Proof.
  intros Hb R Hs. rewrite (started_dismiss_iff K props (instance m) Hs).
  assert (N : noThresholds (instance m)).
  { eapply run_keeps_noThresholds; [exact Hb| |exact R]. split; reflexivity. }
  rewrite (beyondThreshold_noThresholds props N), orb_false_r. reflexivity.
Qed.

Lemma unmeasured_view_only_swipe_dismisses_witness :
  existsb isLayout [deliver panning] = false
  /\ run sampleScreen (mount sampleProps) [deliver panning] = Some (touched, [])
  /\ swipe (instance touched) = Some {| dir_x := None; dir_y := None |}
  /\ ~ exists animations,
         started (onPanEnd sampleScreen (with_context (dragX false 300 RIGHT) sampleProps)
                    (instance touched))
           animations DismissAnimation.
Proof.
  assert (R : run sampleScreen (mount sampleProps) [deliver panning] = Some (touched, []))
    by (vm_compute; reflexivity).
  split; [reflexivity|]. split; [exact R|]. split; [reflexivity|].
  intros H.
  apply (proj1 (@unmeasured_view_only_swipe_dismisses sampleScreen sampleProps
                  (with_context (dragX false 300 RIGHT) sampleProps)
                  [deliver panning] touched [] _ eq_refl R eq_refl)) in H.
  discriminate H.
Defined.

Lemma Qabs_reaches (x t : Q) : t <= Qabs x <-> x <= - t \/ t <= x.
Proof.
  split.
  - intros H. destruct (Qlt_le_dec x 0) as [Hneg|Hpos].
    + left. rewrite (Qabs_neg x) in H by (apply Qlt_le_weak, Hneg).
      apply Qopp_le_compat in H. rewrite Qopp_involutive in H. exact H.
    + right. rewrite (Qabs_pos x) in H by exact Hpos. exact H.
  - intros [H|H].
    + apply Qopp_le_compat in H. rewrite Qopp_involutive in H.
      apply Qle_trans with (- x); [exact H|].
      rewrite <- Qabs_opp. apply Qle_Qabs.
    + apply Qle_trans with x; [exact H|apply Qle_Qabs].
Qed.

(** X11. With the default [directions] (all four), a release with no swipe
    held dismisses exactly when the rounded offset reaches the threshold in
    magnitude on one axis: |round(left)| >= thresholdX or |round(top)| >=
    thresholdY. *)
Theorem default_directions_dismiss_by_magnitude (K : ScreenConstants) (props : Props)
    (this : Instance) (l t tx ty : Q) :
  directions props = allDirections ->
  swipe this = Some {| dir_x := None; dir_y := None |} ->
  left this = Num l -> top this = Num t ->
  thresholdX this = Num tx -> thresholdY this = Num ty ->
  (exists animations, started (onPanEnd K props this) animations DismissAnimation)
  <-> tx <= Qabs (roundQ l) \/ ty <= Qabs (roundQ t).
Proof.
  intros Hd Hs Hl Ht Hx Hy.
  rewrite (started_dismiss_iff K props this Hs).
  unfold hasSwipe. rewrite Hs. simpl orb.
  rewrite (beyondThreshold_spec props this Hl Ht Hx Hy), Hd.
  rewrite !Qabs_reaches. unfold thresholdReached, allDirections. simpl. tauto.
Qed.

Lemma default_directions_dismiss_by_magnitude_witness :
  directions sampleProps = allDirections
  /\ swipe (instance dragging) = Some {| dir_x := None; dir_y := None |}
  /\ left (instance dragging) = Num 60 /\ top (instance dragging) = Num 0
  /\ thresholdX (instance dragging) = Num (100 # 2)
  /\ thresholdY (instance dragging) = Num (200 # 2)
  /\ exists animations,
       started (onPanEnd sampleScreen (with_context (dragX false 60 RIGHT) sampleProps)
                  (instance dragging))
         animations DismissAnimation.
Proof.
  repeat (split; [reflexivity|]).
  apply (proj2 (@default_directions_dismiss_by_magnitude sampleScreen
                  (with_context (dragX false 60 RIGHT) sampleProps)
                  (instance dragging) 60 0 (100 # 2) (200 # 2)
                  eq_refl eq_refl eq_refl eq_refl eq_refl eq_refl)).
  left. vm_compute. discriminate.
Defined.

(** X12. A dismissal that a drag beyond threshold triggers, with no swipe in
    the context, exits on the side [dragDirections] names, axis by axis, and
    not by the sign of the offset: the target of an axis is the rounded
    off-screen position (the double sum of screen extent and view extent) on
    the side of its drag direction, and an axis with no drag direction is not
    animated. *)
Theorem drag_dismissal_exits_along_dragDirections (K : ScreenConstants) (props : Props)
    (this : Instance) :
  swipe this = Some {| dir_x := None; dir_y := None |} ->
  beyondThreshold props this = true ->
  swipeDirections (context props) = {| dir_x := None; dir_y := None |} ->
  exists onX onY : list Animation,
    onPanEnd K props this =
    Returned tt (set_isAnimating true this) [ParallelStart (onX ++ onY) DismissAnimation]
    /\ axisDismissed (animTranslateX this) (screenWidth K) (width this)
         (option_map (fun d => Direction_eqb d RIGHT) (dir_x (dragDirections (context props))))
         onX
    /\ axisDismissed (animTranslateY this) (screenHeight K) (height this)
         (option_map (fun d => Direction_eqb d DOWN) (dir_y (dragDirections (context props))))
         onY.
Proof.
  intros Hs Hb Hc.
  rewrite onPanEnd_eq, Hs, Hb, (getDismissAnimationDirection_of_drag props Hc).
  simpl. rewrite animateDismiss_eq.
  eexists; eexists. split; [reflexivity|]. split; apply timingTo_axis.
Qed.

(** The view was dragged to +60, past the threshold 50, and the context
    names LEFT as the drag direction: it exits to the left, at -500. *)
Lemma drag_dismissal_exits_along_dragDirections_witness :
  swipe (instance dragging) = Some {| dir_x := None; dir_y := None |}
  /\ left (instance dragging) = Num 60
  /\ beyondThreshold (with_context (dragX false 60 LEFT) sampleProps)
       (instance dragging) = true
  /\ exists onX onY : list Animation,
       onPanEnd sampleScreen (with_context (dragX false 60 LEFT) sampleProps)
         (instance dragging)
       = Returned tt (set_isAnimating true (instance dragging))
           [ParallelStart (onX ++ onY) DismissAnimation]
       /\ onX = [timing (animTranslateX (instance dragging)) (Num (-500)) 280]
       /\ onY = [].
Proof.
  split; [reflexivity|]. split; [reflexivity|]. split; [reflexivity|].
  destruct (@drag_dismissal_exits_along_dragDirections sampleScreen
              (with_context (dragX false 60 LEFT) sampleProps)
              (instance dragging) eq_refl eq_refl eq_refl)
    as (onX & onY & Hrun & HX & HY).
  exists onX, onY. split; [exact Hrun|]. split; [exact (proj1 HX)|exact HY].
Defined.

(** ** Settle animation *)

Lemma settleTarget_round (offset : jsnum) :
  settleTarget offset (Math_round (neg offset)).
Proof.
  destruct offset as [| |l]; unfold settleTarget, Math_round, neg; try reflexivity.
  exists (roundQ (- l)). split; [reflexivity|]. split.
  - assert (E : l + roundQ (- l) == roundQ (- l) - - l) by ring.
    rewrite E. apply roundQ_near.
  - intros H. rewrite (roundQ_integral (integral_opp H)). ring.
Qed.

(** X13. The settle animation always drives both channels, X then Y, with
    the speed and bounciness of the [animationOptions] prop: the guards on
    an undefined target never skip an axis.  The target of an axis cancels
    its offset up to rounding, exactly when the offset is a whole number of
    pixels, and is NaN when the offset was never assigned. *)
Theorem settle_drives_both_channels (props : Props) (this : Instance) :
  exists toX toY : jsnum,
    animateToInitialPosition props this =
    Returned tt (set_isAnimating true this)
      [ParallelStart
         [spring (animTranslateX this) toX
            (animationSpeed (animationOptions props))
            (animationBounciness (animationOptions props));
          spring (animTranslateY this) toY
            (animationSpeed (animationOptions props))
            (animationBounciness (animationOptions props))]
         InitAnimation]
    /\ settleTarget (left this) toX
    /\ settleTarget (top this) toY.
Proof.
  exists (Math_round (neg (left this))), (Math_round (neg (top this))).
  split; [|split; apply settleTarget_round].
  rewrite animateToInitialPosition_eq. unfold springTo.
  destruct (left this), (top this); reflexivity.
Qed.

(** ** No callback supplied *)

Lemma handler_without_callback (K : ScreenConstants) (m : Mounted) (e : Event) :
  onDismiss (current_props m) = false ->
  dismissCallbacks (effectsOf (handler K m e (instance m))) = 0%nat.
Proof.
  intros Hcb. destruct e as [w h|nextProps| |finished]; simpl handler.
  - apply noCallback_count, emitsOnly_onLayout. reflexivity.
  - apply noCallback_count, emitsOnly_componentDidUpdate; reflexivity.
  - apply noCallback_count, emitsOnly_onInitAnimationFinished. reflexivity.
  - rewrite onDismissAnimationFinished_eq, Hcb, andb_false_r. reflexivity.
Qed.

(** X14. When no [onDismiss] prop is supplied, a dismiss animation that runs
    to its end calls nothing: over any run in which the props never bring a
    callback, no callback is invoked, and the completion handler returns
    normally. *)
Theorem no_callback_prop_no_call (K : ScreenConstants) (es : list Event) :
  forall (m m' : Mounted) (out : list Effect),
    onDismiss (current_props m) = false ->
    forallb dropsCallback es = true ->
    run K m es = Some (m', out) ->
    dismissCallbacks out = 0%nat
    /\ step K m' (DismissAnimationFinished true) = Some (m', []).
Proof.
  induction es as [|e es IH]; intros m m' out Hcb Hes H; simpl in H.
  - injection H as <- <-. split; [reflexivity|].
    unfold step. cbn [handler]. rewrite onDismissAnimationFinished_eq, Hcb.
    destruct m; reflexivity.
  - simpl in Hes. apply andb_true_iff in Hes. destruct Hes as [He Hes].
    pose proof (handler_without_callback K m e Hcb) as Hnone.
    unfold step in H.
    destruct (handler K m e (instance m)) as [a this1 o1|] eqn:E; [|discriminate].
    destruct (run K _ es) as [[m2 o2]|] eqn:R; [|discriminate].
    injection H as <- <-.
    assert (Hcb1 : onDismiss (current_props
                     {| current_props := props_after m e; instance := this1 |}) = false).
    { destruct e; simpl in *; try assumption.
      apply negb_true_iff. exact He. }
    destruct (IH _ _ _ Hcb1 Hes R) as [Hcount Hstep].
    split; [|exact Hstep].
    rewrite dismissCallbacks_app. simpl in Hnone. rewrite Hnone, Hcount. reflexivity.
Qed.

Lemma no_callback_prop_no_call_witness :
  onDismiss (current_props (mount (noCallbackProps idle))) = false
  /\ forallb dropsCallback noCallbackTrace = true
  /\ exists m' out,
       run sampleScreen (mount (noCallbackProps idle)) noCallbackTrace = Some (m', out)
       /\ dismissCallbacks out = 0%nat.
Proof.
  split; [reflexivity|]. split; [reflexivity|].
  destruct (run sampleScreen (mount (noCallbackProps idle)) noCallbackTrace)
    as [[m' out]|] eqn:R; [|vm_compute in R; discriminate R].
  exists m', out. split; [reflexivity|].
  exact (proj1 (@no_callback_prop_no_call sampleScreen noCallbackTrace
                  (mount (noCallbackProps idle)) m' out eq_refl eq_refl R)).
Defined.

Lemma swipe_dismissal_never_settles_witness :
  hasSwipe (instance swipeDismissed) = true
  /\ isAnimating (instance swipeDismissed) = true
  /\ exists m' out,
       run sampleScreen swipeDismissed
         [DismissAnimationFinished true; deliver (dragX true 10 RIGHT); deliver idle]
       = Some (m', out)
       /\ isAnimating (instance m') = true
       /\ existsb isSettleStart out = false.
Proof.
  split; [reflexivity|]. split; [reflexivity|].
  destruct (@swipe_dismissal_never_settles sampleScreen
              [DismissAnimationFinished true; deliver (dragX true 10 RIGHT); deliver idle]
              swipeDismissed eq_refl eq_refl eq_refl)
    as (m' & out & R & _ & Ha & Ho).
  exists m', out. split; [exact R|]. split; [exact Ha|exact Ho].
Defined.

(** ** A new gesture *)

(** X15. A pan start taken while no animation runs begins a gesture with no
    swipe held, even when the previous gesture left one in [this.swipe] and
    the context still reports it: a swipe direction that did not change with
    the update is not captured again.  The update never throws and starts no
    animation. *)
Theorem pan_start_clears_stale_swipe (K : ScreenConstants) (prevProps props : Props)
    (this : Instance) :
  isAnimating this = false ->
  isPanning (context prevProps) = false ->
  isPanning (context props) = true ->
  swipeDirections (context props) = swipeDirections (context prevProps) ->
  exists this' out,
    componentDidUpdate K prevProps props this = Returned tt this' out
    /\ swipe this' = Some {| dir_x := None; dir_y := None |}
    /\ hasSwipe this' = false
    /\ isAnimating this' = false
    /\ out = (if dragDelivered prevProps props
              then draggedOut (dragDeltas (context props)) this else []).
Proof.
  intros Ha Hprev Hnext Hsame.
  rewrite componentDidUpdate_stages, panStage_eq.
  unfold panChanged, swipeDelivered, directionsChanged.
  rewrite Hprev, Hnext, Ha, Hsame, !dir_strict_eq_refl. simpl.
  rewrite andb_false_r.
  eexists; eexists. split; [reflexivity|].
  unfold dragged, draggedOut, positioned, nativeOut, hasSwipe.
  destruct (dragDelivered prevProps props); simpl; [|auto].
  destruct (ref_current this); simpl; auto.
Qed.

Lemma pan_start_clears_stale_swipe_witness :
  isAnimating (instance swiped) = false
  /\ hasSwipe (instance swiped) = true
  /\ exists this' out,
       componentDidUpdate sampleScreen
         (with_context (swipeX false LEFT) sampleProps)
         (with_context (swipeX true LEFT) sampleProps) (instance swiped)
       = Returned tt this' out
       /\ hasSwipe this' = false.
Proof.
  split; [reflexivity|]. split; [reflexivity|].
  destruct (@pan_start_clears_stale_swipe sampleScreen
              (with_context (swipeX false LEFT) sampleProps)
              (with_context (swipeX true LEFT) sampleProps) (instance swiped)
              eq_refl eq_refl eq_refl eq_refl)
    as (this' & out & Hrun & _ & Hs & _).
  exists this', out. split; [exact Hrun|exact Hs].
Defined.
